(** * create_blog.py: the four-step blog pipeline

    A shallow embedding of [src/create_blog.py].  Python text is a list of
    Unicode code points, JSON data is a small universe of Python values,
    and every effect of the script (console output, the two web APIs, the
    output file) is an entry of an event log that a step returns next to
    its result or its exception.  [print] raises when standard output
    cannot encode the text. *)

From Stdlib Require Import ZArith NArith List Bool Ascii String DecimalString Lia.
From stdpp Require Import gmap list.

Import ListNotations.
Set Warnings "-register-all".
Local Open Scope list_scope.

(** ** Text *)

(** A Python [str] is a sequence of code points. *)
Abbreviation text := (list N).

(** The code points of an ASCII literal of the source. *)
Definition py (s : string) : text :=
  List.map N_of_ascii (list_ascii_of_string s).
Arguments py s%_string.

Definition nl : text := [10%N].

(** [str.isspace] on one code point: the characters [str.strip] and
    [str.rstrip] remove when called without argument. *)
Definition isspace (c : N) : bool :=
  ((9 <=? c) && (c <=? 13) || (28 <=? c) && (c <=? 32)
   || (c =? 133) || (c =? 160) || (c =? 5760)
   || (8192 <=? c) && (c <=? 8202)
   || (c =? 8232) || (c =? 8233) || (c =? 8239) || (c =? 8287)
   || (c =? 12288))%N.

Definition ascii_isalnum (c : N) : bool :=
  ((48 <=? c) && (c <=? 57) || (65 <=? c) && (c <=? 90)
   || (97 <=? c) && (c <=? 122))%N.

(** UTF-8 cannot encode a lone surrogate: [f.write] raises on one. *)
Definition is_surrogate (c : N) : bool := ((55296 <=? c) && (c <=? 57343))%N.

Definition is_ascii (c : N) : bool := (c <? 128)%N.

Definition text_eqb (a b : text) : bool := bool_decide (a = b).

(** [s.lstrip()], [s.rstrip()], [s.strip()]. *)
Fixpoint lstrip (s : text) : text :=
  match s with
  | [] => []
  | c :: t => if isspace c then lstrip t else s
  end.

Fixpoint rstrip (s : text) : text :=
  match s with
  | [] => []
  | c :: t =>
      match rstrip t with
      | [] => if isspace c then [] else [c]
      | t' => c :: t'
      end
  end.

Definition strip (s : text) : text := lstrip (rstrip s).

(** [s.split(sep)] for a one-character separator: never empty. *)
Fixpoint split (sep : N) (s : text) : list text :=
  match s with
  | [] => [[]]
  | c :: t =>
      if (c =? sep)%N then [] :: split sep t
      else match split sep t with
           | seg :: segs => (c :: seg) :: segs
           | [] => [[c]]
           end
  end.

(** [sep.join(parts)]. *)
Fixpoint join (sep : text) (parts : list text) : text :=
  match parts with
  | [] => []
  | [p] => p
  | p :: rest => p ++ sep ++ join sep rest
  end.

(** [a in b] on two strings. *)
Fixpoint starts_with (a b : text) : bool :=
  match a, b with
  | [], _ => true
  | x :: a', y :: b' => (x =? y)%N && starts_with a' b'
  | _ :: _, [] => false
  end.

Fixpoint str_contains (a b : text) : bool :=
  starts_with a b ||
  match b with
  | [] => false
  | _ :: b' => str_contains a b'
  end.

(** ** Python values

    What [response.json()] can hand back.  A dict keeps its insertion
    order; its keys are distinct, and a lookup takes the first binding.
    A float is carried by its [repr]. *)
Inductive value :=
| VNone
| VBool (b : bool)
| VInt (n : Z)
| VFloat (repr : text)
| VStr (s : text)
| VList (items : list value)
| VDict (entries : list (text * value)).

Fixpoint dict_lookup (d : list (text * value)) (k : text) : option value :=
  match d with
  | [] => None
  | (k', v) :: rest => if text_eqb k' k then Some v else dict_lookup rest k
  end.

(** ** Exceptions *)

Inductive exn_class :=
| ConnectionError          (* requests.get could not complete *)
| HTTPError                (* raise_for_status *)
| RequestsJSONDecodeError  (* response.json(): requests.exceptions.JSONDecodeError *)
| TypeError
| AttributeError
| KeyError
| IndexError
| ValueError               (* the JSON decoder on an integer with too many digits *)
| RecursionError           (* the JSON decoder on a body nested too deep *)
| OSError
| UnicodeEncodeError
| ApiError.                (* whatever the generation client raises *)

Record exn := Exn { exn_cls : exn_class; exn_msg : text }.

(** [isinstance(e, requests.exceptions.RequestException)]: since requests
    2.27 the error of [response.json()] is one of them. *)
Definition is_RequestException (e : exn) : bool :=
  match exn_cls e with
  | ConnectionError | HTTPError | RequestsJSONDecodeError => true
  | _ => false
  end.

(** [isinstance(e, Exception)]. *)
Definition is_Exception (e : exn) : bool := true.

(** ** Events and the step monad *)

Inductive step := Finder | KeywordGenerator | ArticleWriter | Publisher.

Inductive event :=
| Entered (s : step)                 (* ghost: the step's function is entered *)
| Printed (line : text)              (* print(line) *)
| HttpGet (query : text)             (* requests.get on the search endpoint *)
| Generated (prompt : text)          (* model.generate_content(prompt) *)
| Opened (filename : text)           (* open(filename, 'w') created or truncated the file *)
| Wrote (filename content : text).   (* f.write(content) *)

Inductive outcome (A : Type) :=
| Ret (a : A)
| Raise (e : exn).
Arguments Ret {A} a.
Arguments Raise {A} e.

(** A computation: its result or exception, and what it did on the way. *)
Definition M (A : Type) : Type := outcome A * list event.

Definition ret {A} (a : A) : M A := (Ret a, []).
Definition lift {A} (o : outcome A) : M A := (o, []).
Definition raise {A} (e : exn) : M A := (Raise e, []).
Definition emit (e : event) : M unit := (Ret tt, [e]).

Definition bind {A B} (m : M A) (f : A -> M B) : M B :=
  match m with
  | (Ret a, l1) => let (o, l2) := f a in (o, l1 ++ l2)
  | (Raise e, l1) => (Raise e, l1)
  end.

(** [try: body  except <catches> as e: handler e]. *)
Definition try_except {A} (body : M A) (catches : exn -> bool)
    (handler : exn -> M A) : M A :=
  match body with
  | (Raise e, l1) =>
      if catches e then let (o, l2) := handler e in (o, l1 ++ l2)
      else (Raise e, l1)
  | done => done
  end.

Declare Scope py_scope.
Delimit Scope py_scope with py_m.
Notation "'let*' x ':=' m 'in' k" := (bind m (fun x => k))
  (at level 10, x name, m at level 100, k at level 200,
   format "'[v' 'let*'  x  ':='  m  'in' '/' k ']'") : py_scope.
Notation "m ';;' k" := (bind m (fun _ => k))
  (at level 100, k at level 200, right associativity) : py_scope.
Local Open Scope py_scope.

Definition result {A} (m : M A) : outcome A := fst m.
Definition events {A} (m : M A) : list event := snd m.

(** ** The file system seen through the log *)

Definition fs_step (fs : gmap (list N) (list N)) (e : event)
    : gmap (list N) (list N) :=
  match e with
  | Opened name => <[name := []]> fs
  | Wrote name content => <[name := default [] (fs !! name) ++ content]> fs
  | _ => fs
  end.

Definition replay (evs : list event) (fs : gmap (list N) (list N))
    : gmap (list N) (list N) :=
  fold_left fs_step evs fs.

(** ** Operations on values

    The exceptions below are never printed by the script: their message is
    left empty. *)

Definition py_error {A} (c : exn_class) : outcome A := Raise (Exn c []).

(** [key in data] for a string [key]. *)
Definition py_in (key : text) (data : value) : outcome bool :=
  match data with
  | VDict d => Ret (match dict_lookup d key with Some _ => true | None => false end)
  | VList l =>
      Ret (existsb (fun v => match v with VStr s => text_eqb s key | _ => false end) l)
  | VStr s => Ret (str_contains key s)
  | _ => py_error TypeError
  end.

(** [data[key]] for a string [key]. *)
Definition py_getitem (data : value) (key : text) : outcome value :=
  match data with
  | VDict d => match dict_lookup d key with Some v => Ret v | None => py_error KeyError end
  | _ => py_error TypeError
  end.

(** [len(v)]. *)
Definition py_len (v : value) : outcome nat :=
  match v with
  | VStr s => Ret (length s)
  | VList l => Ret (length l)
  | VDict d => Ret (length d)
  | _ => py_error TypeError
  end.

(** [v[0]]: a dict of JSON has string keys only, so [0] is never one. *)
Definition py_first (v : value) : outcome value :=
  match v with
  | VList (x :: _) => Ret x
  | VList [] => py_error IndexError
  | VStr (c :: _) => Ret (VStr [c])
  | VStr [] => py_error IndexError
  | VDict _ => py_error KeyError
  | _ => py_error TypeError
  end.

(** [product.get(key)]: only a dict has the method. *)
Definition py_get (product : value) (key : text) : outcome value :=
  match product with
  | VDict d => Ret (default VNone (dict_lookup d key))
  | _ => py_error AttributeError
  end.

(** [for x in v]: the items a generator over [v] yields. *)
Definition py_iter (v : value) : outcome (list value) :=
  match v with
  | VStr s => Ret (List.map (fun c => VStr [c]) s)
  | VList l => Ret l
  | VDict d => Ret (List.map (fun kv => VStr (fst kv)) d)
  | _ => py_error TypeError
  end.

Definition decimal (n : Z) : text :=
  py (DecimalString.NilZero.string_of_int (Z.to_int n)).

(** ** What the interpreter and the machine decide *)

Record platform := {
  (** [str.isalnum] beyond ASCII: the Unicode tables of the interpreter *)
  unicode_isalnum : N -> bool;
  (** [str()] of a list or a dict *)
  str_container : value -> text;
  (** the [OSError] that [open(name, 'w')] raises, if it does *)
  open_error : text -> option text;
  (** the message of the [UnicodeEncodeError] of [f.write] on a content *)
  encode_error : text -> text;
  (** the characters beyond ASCII that standard output can encode *)
  stdout_encodes : N -> bool;
  (** the message of the [UnicodeEncodeError] of [print] on a text *)
  stdout_error : text -> text;
  (** such a message names the codec and escapes the character: it is ASCII *)
  encode_error_ascii : forall s, forallb is_ascii (encode_error s) = true;
  stdout_error_ascii : forall s, forallb is_ascii (stdout_error s) = true
}.

(** The product the Finder returns: a dict of exactly these four keys. *)
Record product_info := {
  title : value;
  price : value;
  source : value;
  link : value
}.

(** What lines 31 to 33 do on the one request of a run. *)
Inductive http_outcome :=
| GetFails (msg : text)      (* requests.get raises: no connection, timeout *)
| BadStatus (msg : text)     (* raise_for_status raises HTTPError *)
| BodyNotJson (msg : text)   (* response.json() raises requests' JSONDecodeError *)
| FetchRaises (e : exn)      (* one of the three calls raises something else:
                                ValueError or RecursionError of the decoder,
                                an encoding error of the parameters *)
| BodyJson (data : value).

(** What the generation API does on one request: [generate_content] or
    [response.text] raises, or there is a text. *)
Inductive gen_outcome :=
| GenFails (e : exn)
| GenText (reply : text).

Record responses := {
  search : http_outcome;
  keywords_reply : gen_outcome;
  article_reply : gen_outcome
}.

(** What [parser.parse_args()] does with the command line: it returns the
    query, or it prints its usage or its help and leaves the process with
    a status ([--query] is required). *)
Inductive args_outcome :=
| ArgsParsed (query : text)
| ArgsExit (status : Z).

(** One start of the script: what [genai.configure] raises, if it does,
    the command line, and the responses of the two APIs. *)
Record invocation := {
  configure : option exn;
  arguments : args_outcome;
  replies : responses
}.

(** How the process ends: with a status, or on the traceback of an
    exception nothing caught. *)
Inductive ending :=
| Exited (status : Z)
| Uncaught (e : exn).

(** ** The pipeline *)

Section Pipeline.

Context (P : platform).

(** [str(v)], as an f-string formats a field. *)
Definition py_str (v : value) : text :=
  match v with
  | VNone => py "None"
  | VBool true => py "True"
  | VBool false => py "False"
  | VInt n => decimal n
  | VFloat r => r
  | VStr s => s
  | _ => str_container P v
  end.

(** Standard output encodes ASCII and what the platform says beyond. *)
Definition stdout_accepts (line : text) : bool :=
  forallb (fun c => is_ascii c || stdout_encodes P c) line.

(** [print(line)]: nothing is written when the text cannot be encoded. *)
Definition print (line : text) : M unit :=
  if stdout_accepts line then emit (Printed line)
  else raise (Exn UnicodeEncodeError (stdout_error P line)).

(** [c.isalnum()] on one character, and [s.isalnum()] on a string. *)
Definition isalnum (c : N) : bool :=
  if (c <? 128)%N then ascii_isalnum c else unicode_isalnum P c.

Definition str_isalnum (s : text) : bool :=
  match s with
  | [] => false
  | _ => forallb isalnum s
  end.

(** *** Step 1: [find_trending_product] *)

Definition shopping_results : text := py "shopping_results".

(** Lines 31 to 33: the request, the status check, the parse. *)
Definition fetch_json (api : http_outcome) : outcome value :=
  match api with
  | GetFails msg => Raise (Exn ConnectionError msg)
  | BadStatus msg => Raise (Exn HTTPError msg)
  | BodyNotJson msg => Raise (Exn RequestsJSONDecodeError msg)
  | FetchRaises e => Raise e
  | BodyJson data => Ret data
  end.

Definition find_trending_product (api : http_outcome) (query : text)
    : M (option product_info) :=
  emit (Entered Finder) ;;
  print (nl ++ py "[INFO] Step 1: Finding a trending product for query: '"
            ++ query ++ py "'...") ;;
  try_except
    (emit (HttpGet query) ;;
     let* data := lift (fetch_json api) in
     let* present := lift (py_in shopping_results data) in
     let* nonempty :=
       (if present : bool then
          let* results := lift (py_getitem data shopping_results) in
          let* n := lift (py_len results) in
          ret (0 <? n)
        else ret false) in
     if nonempty : bool then
       let* results := lift (py_getitem data shopping_results) in
       let* product := lift (py_first results) in
       let* t := lift (py_get product (py "title")) in
       let* p := lift (py_get product (py "price")) in
       let* s := lift (py_get product (py "source")) in
       let* l := lift (py_get product (py "link")) in
       let product_info := {| title := t; price := p; source := s; link := l |} in
       print (py "-> Found Product: " ++ py_str t ++ py " from " ++ py_str s) ;;
       ret (Some product_info)
     else
       print (py "[ERROR] No trending products found for this query.") ;;
       ret None)
    is_RequestException
    (fun e =>
       print (py "[ERROR] Failed to fetch data from SerpApi: " ++ exn_msg e) ;;
       ret None).

(** *** Step 2: [get_seo_keywords] *)

Definition gen_text (api : gen_outcome) : outcome text :=
  match api with
  | GenFails e => Raise e
  | GenText reply => Ret reply
  end.

Definition keyword_prompt (product_info : product_info) : text :=
  nl ++ py "    You are an SEO expert. Based on the following product information, generate 3-4 relevant, long-tail SEO keywords."
  ++ nl ++ py "    These keywords should be what a customer might search for when looking to buy this product."
  ++ nl ++ py "    Return only the keywords, separated by commas. Do not add any extra text or labels."
  ++ nl
  ++ nl ++ py "    Product Title: " ++ py_str (title product_info)
  ++ nl ++ py "    Product Price: " ++ py_str (price product_info)
  ++ nl ++ py "    Sold By: " ++ py_str (source product_info)
  ++ nl ++ py "    ".

Definition comma : N := 44%N.

Definition get_seo_keywords (api : gen_outcome) (product_info : product_info)
    : M (option (list text)) :=
  emit (Entered KeywordGenerator) ;;
  print (py "[INFO] Step 2: Generating SEO keywords with Gemini AI...") ;;
  let prompt := keyword_prompt product_info in
  try_except
    (emit (Generated prompt) ;;
     let* reply := lift (gen_text api) in
     let keywords := List.map strip (split comma reply) in
     print (py "-> Keywords generated: " ++ join (py ", ") keywords) ;;
     ret (Some keywords))
    is_Exception
    (fun e =>
       print (py "[ERROR] Failed to generate keywords from Google Gemini: "
                 ++ exn_msg e) ;;
       ret None).

(** *** Step 3: [create_blog_post] *)

Definition blog_prompt (product_info : product_info) (keywords : list text)
    : text :=
  nl ++ py "    You are a friendly and persuasive blog writer. Write a short blog post of about 150-200 words for the following product."
  ++ nl ++ py "    The tone should be enthusiastic and helpful."
  ++ nl ++ py "    Start with an engaging headline."
  ++ nl ++ py "    Naturally incorporate the following SEO keywords into the text: "
  ++ join (py ", ") keywords ++ py "."
  ++ nl ++ py "    End with a call to action inviting readers to check out the product link."
  ++ nl
  ++ nl ++ py "    Product Title: " ++ py_str (title product_info)
  ++ nl ++ py "    Price: " ++ py_str (price product_info)
  ++ nl ++ py "    Available at: " ++ py_str (source product_info)
  ++ nl ++ py "    ".

Definition create_blog_post (api : gen_outcome) (product_info : product_info)
    (keywords : list text) : M (option text) :=
  emit (Entered ArticleWriter) ;;
  print (py "[INFO] Step 3: Writing blog post with Gemini AI...") ;;
  let prompt := blog_prompt product_info keywords in
  try_except
    (emit (Generated prompt) ;;
     let* reply := lift (gen_text api) in
     let blog_content := strip reply in
     print (py "-> Blog post written successfully.") ;;
     ret (Some blog_content))
    is_Exception
    (fun e =>
       print (py "[ERROR] Failed to write blog post from Google Gemini: "
                 ++ exn_msg e) ;;
       ret None).

(** *** Step 4: [save_as_markdown] *)

(** [x.isalnum() or x in " _-"] on an item of the title. *)
Definition keeps (x : value) : outcome bool :=
  match x with
  | VStr s => Ret (str_isalnum s || str_contains s (py " _-"))
  | _ => py_error AttributeError
  end.

(** [ "".join(x for x in items if x.isalnum() or x in " _-") ]: the first
    item that raises ends the generator. *)
Fixpoint join_kept (items : list value) : outcome text :=
  match items with
  | [] => Ret []
  | x :: rest =>
      match keeps x with
      | Raise e => Raise e
      | Ret keep =>
          match join_kept rest with
          | Raise e => Raise e
          | Ret t =>
              Ret (if keep then match x with VStr s => s ++ t | _ => t end
                   else t)
          end
      end
  end.

(** Line 107: the file name without its extension. *)
Definition safe_filename (product_title : value) : outcome text :=
  match py_iter product_title with
  | Raise e => Raise e
  | Ret items =>
      match join_kept items with
      | Raise e => Raise e
      | Ret kept => Ret (rstrip kept)
      end
  end.

(** Line 111. *)
Definition full_content (product_info : product_info) (blog_content : text)
    : text :=
  blog_content ++ nl ++ nl ++ py "---" ++ nl ++ nl
  ++ py "**Find it here:** [" ++ py_str (title product_info)
  ++ py "](" ++ py_str (link product_info) ++ py ")".

(** [open(filename, 'w', encoding='utf-8')]. *)
Definition open_w (filename : text) : M unit :=
  match open_error P filename with
  | Some msg => raise (Exn OSError msg)
  | None => emit (Opened filename)
  end.

(** [f.write(content)]: the text is encoded as it is written. *)
Definition write (filename content : text) : M unit :=
  if existsb is_surrogate content
  then raise (Exn UnicodeEncodeError (encode_error P content))
  else emit (Wrote filename content).

Definition save_as_markdown (product_info : product_info)
    (blog_content : text) : M unit :=
  emit (Entered Publisher) ;;
  print (py "[INFO] Step 4: Saving blog post as a Markdown file...") ;;
  let* safe := lift (safe_filename (title product_info)) in
  let filename := safe ++ py ".md" in
  let content := full_content product_info blog_content in
  try_except
    (open_w filename ;;
     write filename content ;;
     print (nl ++ py "[SUCCESS] Blog post saved as '" ++ filename ++ py "'!") ;;
     print (py "You can now copy the content of this file and paste it into Medium, WordPress, or any other platform."))
    is_Exception
    (fun e => print (py "[ERROR] Failed to save file: " ++ exn_msg e)).

(** *** The orchestrator: [main]

    [if product:] holds for every dict the Finder returns (it has four
    keys); [if keywords:] and [if blog_post:] hold for a non-empty list
    and a non-empty string. *)
Definition main (r : responses) (query : text) : M unit :=
  let* product := find_trending_product (search r) query in
  match product with
  | Some product =>
      let* keywords := get_seo_keywords (keywords_reply r) product in
      match keywords with
      | Some ((_ :: _) as keywords) =>
          let* blog_post := create_blog_post (article_reply r) product keywords in
          match blog_post with
          | Some ((_ :: _) as blog_post) => save_as_markdown product blog_post
          | _ => ret tt
          end
      | _ => ret tt
      end
  | None => ret tt
  end.

(** *** The script: lines 12 to 17, then [main()] of line 137

    [exit()] without argument ends the process with status 0, as a return
    from [main] does. *)
Definition script (i : invocation) : ending * list event :=
  match configure i with
  | Some e =>
      if is_Exception e then
        match print (py "[FATAL ERROR] Could not configure Google API: "
                        ++ exn_msg e) with
        | (Ret _, log) => (Exited 0, log)
        | (Raise e', log) => (Uncaught e', log)
        end
      else (Uncaught e, [])
  | None =>
      match arguments i with
      | ArgsExit status => (Exited status, [])
      | ArgsParsed query =>
          match main (replies i) query with
          | (Ret _, log) => (Exited 0, log)
          | (Raise e, log) => (Uncaught e, log)
          end
      end
  end.

End Pipeline.

(** * Vocabulary of the properties *)

(** ** Text *)

Definition blank (s : text) : Prop := Forall (fun c => isspace c = true) s.

(** [t] is [s] without its trailing whitespace. *)
Definition trimmed_right (s t : text) : Prop :=
  exists r, s = t ++ r /\ blank r /\
    (forall pre c, t = pre ++ [c] -> isspace c = false).

(** [t] is [s] without its leading and trailing whitespace. *)
Definition trimmed (s t : text) : Prop :=
  exists l r, s = l ++ t ++ r /\ blank l /\ blank r /\
    (forall c rest, t = c :: rest -> isspace c = false) /\
    (forall pre c, t = pre ++ [c] -> isspace c = false).

(** [a] occurs in [b] as a contiguous piece. *)
Definition occurs_in (a b : text) : Prop := exists pre post, b = pre ++ a ++ post.

(** ** Logs *)

(** Every event of a computation satisfies [Q]. *)
Definition all_events {A} (Q : event -> bool) (m : M A) : Prop :=
  forallb Q (events m) = true.

Definition step_eqb (a b : step) : bool :=
  match a, b with
  | Finder, Finder | KeywordGenerator, KeywordGenerator
  | ArticleWriter, ArticleWriter | Publisher, Publisher => true
  | _, _ => false
  end.

(** The events that belong to a step: its own entry, its prints, its API
    call, and for the Publisher the file operations. *)
Definition step_event (s : step) (e : event) : bool :=
  match e with
  | Entered s' => step_eqb s' s
  | Printed _ => true
  | HttpGet _ => step_eqb s Finder
  | Generated _ => step_eqb s KeywordGenerator || step_eqb s ArticleWriter
  | Opened _ | Wrote _ _ => step_eqb s Publisher
  end.

Definition step_index (s : step) : nat :=
  match s with
  | Finder => 1 | KeywordGenerator => 2 | ArticleWriter => 3 | Publisher => 4
  end.

Definition is_file_op (e : event) : bool :=
  match e with Opened _ | Wrote _ _ => true | _ => false end.

(** The file operations of a log, in order. *)
Definition file_ops (evs : list event) : list event := List.filter is_file_op evs.

Definition invoked (s : step) (evs : list event) : Prop := In (Entered s) evs.

(** The file system after a run of [main] that started on [fs]. *)
Definition run (P : platform) (r : responses) (query : text)
    (fs : gmap (list N) (list N)) : gmap (list N) (list N) :=
  replay (events (main P r query)) fs.

(** ** What the steps print *)

Definition finder_banner (query : text) : list event :=
  [Entered Finder;
   Printed (nl ++ py "[INFO] Step 1: Finding a trending product for query: '"
               ++ query ++ py "'...");
   HttpGet query].

Definition no_product : event :=
  Printed (py "[ERROR] No trending products found for this query.").

Definition fetch_failed (msg : text) : event :=
  Printed (py "[ERROR] Failed to fetch data from SerpApi: " ++ msg).

(** What [product.get] yields for each of the four keys of an entry. *)
Definition entry_info (entry : list (text * value)) : product_info :=
  {| title := default VNone (dict_lookup entry (py "title"));
     price := default VNone (dict_lookup entry (py "price"));
     source := default VNone (dict_lookup entry (py "source"));
     link := default VNone (dict_lookup entry (py "link")) |}.

Definition keywords_banner (P : platform) (p : product_info) : list event :=
  [Entered KeywordGenerator;
   Printed (py "[INFO] Step 2: Generating SEO keywords with Gemini AI...");
   Generated (keyword_prompt P p)].

Definition article_banner (P : platform) (p : product_info) (kws : list text) : list event :=
  [Entered ArticleWriter;
   Printed (py "[INFO] Step 3: Writing blog post with Gemini AI...");
   Generated (blog_prompt P p kws)].

Definition publisher_banner : list event :=
  [Entered Publisher;
   Printed (py "[INFO] Step 4: Saving blog post as a Markdown file...")].

Definition saved (filename : text) : list event :=
  [Printed (nl ++ py "[SUCCESS] Blog post saved as '" ++ filename ++ py "'!");
   Printed (py "You can now copy the content of this file and paste it into Medium, WordPress, or any other platform.")].

Definition save_failed (msg : text) : event :=
  Printed (py "[ERROR] Failed to save file: " ++ msg).

(** ** The search response *)

(** The parsed body holds a non-empty list under ["shopping_results"]. *)
Definition has_results (data : value) : Prop :=
  exists d x rest,
    data = VDict d /\ dict_lookup d shopping_results = Some (VList (x :: rest)).


(** ** The file name *)

(** A character the file name keeps. *)
Definition allowed (P : platform) (c : N) : bool :=
  isalnum P c || (c =? 32)%N || (c =? 95)%N || (c =? 45)%N.

(** ** Runs *)

(** How a run ends: at the first step that raises or whose value is
    falsy, or after the Publisher. *)
Inductive run_shape (P : platform) (r : responses) (query : text)
    : M unit -> Prop :=
| RunFinderRaises e l1 :
    find_trending_product P (search r) query = (Raise e, l1) ->
    run_shape P r query (Raise e, l1)
| RunNoProduct l1 :
    find_trending_product P (search r) query = (Ret None, l1) ->
    run_shape P r query (Ret tt, l1)
| RunKeywordsRaise p l1 e l2 :
    find_trending_product P (search r) query = (Ret (Some p), l1) ->
    get_seo_keywords P (keywords_reply r) p = (Raise e, l2) ->
    run_shape P r query (Raise e, l1 ++ l2)
| RunNoKeywords p l1 kws l2 :
    find_trending_product P (search r) query = (Ret (Some p), l1) ->
    get_seo_keywords P (keywords_reply r) p = (Ret kws, l2) ->
    kws = None \/ kws = Some [] ->
    run_shape P r query (Ret tt, l1 ++ l2)
| RunArticleRaises p l1 k ks l2 e l3 :
    find_trending_product P (search r) query = (Ret (Some p), l1) ->
    get_seo_keywords P (keywords_reply r) p = (Ret (Some (k :: ks)), l2) ->
    create_blog_post P (article_reply r) p (k :: ks) = (Raise e, l3) ->
    run_shape P r query (Raise e, l1 ++ l2 ++ l3)
| RunNoArticle p l1 k ks l2 blog l3 :
    find_trending_product P (search r) query = (Ret (Some p), l1) ->
    get_seo_keywords P (keywords_reply r) p = (Ret (Some (k :: ks)), l2) ->
    create_blog_post P (article_reply r) p (k :: ks) = (Ret blog, l3) ->
    blog = None \/ blog = Some [] ->
    run_shape P r query (Ret tt, l1 ++ l2 ++ l3)
| RunPublisher p l1 k ks l2 c cs l3 o l4 :
    find_trending_product P (search r) query = (Ret (Some p), l1) ->
    get_seo_keywords P (keywords_reply r) p = (Ret (Some (k :: ks)), l2) ->
    create_blog_post P (article_reply r) p (k :: ks) = (Ret (Some (c :: cs)), l3) ->
    save_as_markdown P p (c :: cs) = (o, l4) ->
    run_shape P r query (o, l1 ++ l2 ++ l3 ++ l4).

(** Step [s] is the one that returns [None] in the run on [r]. *)
Definition fails_at (P : platform) (r : responses) (query : text) (s : step)
    : Prop :=
  match s with
  | Finder =>
      result (find_trending_product P (search r) query) = Ret None
  | KeywordGenerator =>
      exists p,
        result (find_trending_product P (search r) query) = Ret (Some p)
        /\ result (get_seo_keywords P (keywords_reply r) p) = Ret None
  | ArticleWriter =>
      exists p kws,
        result (find_trending_product P (search r) query) = Ret (Some p)
        /\ result (get_seo_keywords P (keywords_reply r) p) = Ret (Some kws)
        /\ result (create_blog_post P (article_reply r) p kws) = Ret None
  | Publisher => False
  end.

(** ** A concrete machine and concrete responses *)

(** ASCII-only tables, every file can be opened, and standard output is
    UTF-8: it encodes everything but a lone surrogate.  Of the message of
    an encoding error only the reason at its end is kept. *)
Definition plain_platform : platform :=
  {| unicode_isalnum := fun _ => false;
     str_container := fun _ => py "[...]";
     open_error := fun _ => None;
     encode_error := fun _ => py "surrogates not allowed";
     stdout_encodes := fun c => negb (is_surrogate c);
     stdout_error := fun _ => py "surrogates not allowed";
     encode_error_ascii := fun _ => eq_refl;
     stdout_error_ascii := fun _ => eq_refl |}.

(** The same machine with a Latin-1 console: standard output encodes the
    code points below 256 and no other. *)
Definition latin1_platform : platform :=
  {| unicode_isalnum := fun _ => false;
     str_container := fun _ => py "[...]";
     open_error := fun _ => None;
     encode_error := fun _ => py "surrogates not allowed";
     stdout_encodes := fun c => (c <? 256)%N;
     stdout_error := fun _ => py "ordinal not in range(256)";
     encode_error_ascii := fun _ => eq_refl;
     stdout_error_ascii := fun _ => eq_refl |}.

Definition acme_entry : list (text * value) :=
  [(py "title", VStr (py "Acme Trail Shoe: X1!"));
   (py "price", VStr (py "$59.99"));
   (py "source", VStr (py "Acme Store"));
   (py "link", VStr (py "https://example.com/x1"))].

Definition acme : product_info := entry_info acme_entry.

(** The same entry without its title. *)
Definition untitled_entry : list (text * value) :=
  [(py "price", VStr (py "$59.99"));
   (py "source", VStr (py "Acme Store"));
   (py "link", VStr (py "https://example.com/x1"))].

Definition search_body (entries : list value) : value :=
  VDict [(shopping_results, VList entries)].

Definition acme_responses : responses :=
  {| search := BodyJson (search_body [VDict acme_entry]);
     keywords_reply := GenText (py "trail shoes, lightweight running shoes");
     article_reply := GenText (py "Meet the Acme Trail Shoe X1.") |}.

Definition untitled_responses : responses :=
  {| search := BodyJson (search_body [VDict untitled_entry]);
     keywords_reply := GenText (py "trail shoes, lightweight running shoes");
     article_reply := GenText (py "Meet the trail shoe.") |}.

(** The generation API refuses the first request. *)
Definition quota_responses : responses :=
  {| search := BodyJson (search_body [VDict acme_entry]);
     keywords_reply := GenFails (Exn ApiError (py "quota exceeded"));
     article_reply := GenText (py "Meet the Acme Trail Shoe X1.") |}.

Definition shoes : text := py "best running shoes".

(** A reply with a lone surrogate, which UTF-8 cannot encode. *)
Definition unprintable_reply : text :=
  py "trail " ++ [55296%N] ++ py " shoes, running".

(** A reply with the shoe emoji U+1F45F, beyond Latin-1. *)
Definition emoji_reply : text :=
  py "trail shoes " ++ [128095%N] ++ py ", running".

Definition unprintable_responses : responses :=
  {| search := BodyJson (search_body [VDict acme_entry]);
     keywords_reply := GenText unprintable_reply;
     article_reply := GenText (py "Meet the Acme Trail Shoe X1.") |}.

(** ** More ways to read a log *)

Definition found (P : platform) (info : product_info) : event :=
  Printed (py "-> Found Product: " ++ py_str P (title info)
              ++ py " from " ++ py_str P (source info)).

Definition is_request (e : event) : bool :=
  match e with HttpGet _ | Generated _ => true | _ => false end.

(** The requests to the two APIs, in order. *)
Definition requests (evs : list event) : list event := List.filter is_request evs.

(** The steps entered, in order. *)
Fixpoint entered (evs : list event) : list step :=
  match evs with
  | [] => []
  | Entered s :: rest => s :: entered rest
  | _ :: rest => entered rest
  end.

Definition pipeline_order : list step :=
  [Finder; KeywordGenerator; ArticleWriter; Publisher].

(** A [print] call whose text starts with [[ERROR] ]. *)
Definition error_line (e : event) : Prop :=
  exists rest, e = Printed (py "[ERROR] " ++ rest).

Definition ends_with_error (evs : list event) : Prop :=
  exists before e, evs = before ++ [e] /\ error_line e.

(** A text without whitespace at either end. *)
Definition tight (t : text) : Prop :=
  (forall c rest, t = c :: rest -> isspace c = false)
  /\ (forall pre c, t = pre ++ [c] -> isspace c = false).

(** ** What [print] raises *)

(** The exception of a [print] that cannot encode its text. *)
Definition print_exn (P : platform) (line : text) : exn :=
  Exn UnicodeEncodeError (stdout_error P line).

Definition finder_line (query : text) : text :=
  nl ++ py "[INFO] Step 1: Finding a trending product for query: '"
     ++ query ++ py "'...".

Definition found_line (P : platform) (info : product_info) : text :=
  py "-> Found Product: " ++ py_str P (title info)
     ++ py " from " ++ py_str P (source info).

Definition fetch_failed_line (msg : text) : text :=
  py "[ERROR] Failed to fetch data from SerpApi: " ++ msg.

Definition keywords_line (keywords : list text) : text :=
  py "-> Keywords generated: " ++ join (py ", ") keywords.

Definition keywords_failed_line (msg : text) : text :=
  py "[ERROR] Failed to generate keywords from Google Gemini: " ++ msg.

Definition article_failed_line (msg : text) : text :=
  py "[ERROR] Failed to write blog post from Google Gemini: " ++ msg.

Definition saved_line (filename : text) : text :=
  nl ++ py "[SUCCESS] Blog post saved as '" ++ filename ++ py "'!".

Definition save_failed_line (msg : text) : text :=
  py "[ERROR] Failed to save file: " ++ msg.

(** The ways the Finder ends. *)
Inductive finder_ending (P : platform) (api : http_outcome) (query : text)
    : M (option product_info) -> Prop :=
| EndsAtBanner :
    stdout_accepts P query = false ->
    finder_ending P api query
      (Raise (print_exn P (finder_line query)), [Entered Finder])
| EndsCaught e :
    stdout_accepts P query = true ->
    fetch_json api = Raise e -> is_RequestException e = true ->
    stdout_accepts P (exn_msg e) = true ->
    finder_ending P api query
      (Ret None, finder_banner query ++ [fetch_failed (exn_msg e)])
| EndsInHandler e :
    stdout_accepts P query = true ->
    fetch_json api = Raise e -> is_RequestException e = true ->
    stdout_accepts P (exn_msg e) = false ->
    finder_ending P api query
      (Raise (print_exn P (fetch_failed_line (exn_msg e))), finder_banner query)
| EndsUncaught e :
    stdout_accepts P query = true ->
    fetch_json api = Raise e -> is_RequestException e = false ->
    finder_ending P api query (Raise e, finder_banner query)
| EndsNoProduct data :
    stdout_accepts P query = true ->
    api = BodyJson data -> ~ has_results data ->
    finder_ending P api query (Ret None, finder_banner query ++ [no_product])
| EndsFound d entry rest :
    stdout_accepts P query = true ->
    api = BodyJson (VDict d) ->
    dict_lookup d shopping_results = Some (VList (VDict entry :: rest)) ->
    stdout_accepts P (found_line P (entry_info entry)) = true ->
    finder_ending P api query
      (Ret (Some (entry_info entry)),
       finder_banner query ++ [found P (entry_info entry)])
| EndsAtFound d entry rest :
    stdout_accepts P query = true ->
    api = BodyJson (VDict d) ->
    dict_lookup d shopping_results = Some (VList (VDict entry :: rest)) ->
    stdout_accepts P (found_line P (entry_info entry)) = false ->
    finder_ending P api query
      (Raise (print_exn P (found_line P (entry_info entry))), finder_banner query)
| EndsOnShape data c :
    stdout_accepts P query = true ->
    api = BodyJson data ->
    c = TypeError \/ c = AttributeError \/ c = KeyError ->
    finder_ending P api query (Raise (Exn c []), finder_banner query).

(** * Properties *)

(** ** Splitting and trimming *)

Lemma split_not_nil sep s : split sep s <> [].
Proof.
  destruct s as [|c t]; simpl; [discriminate|].
  destruct (c =? sep)%N; [discriminate|].
  destruct (split sep t); discriminate.
Qed.

Lemma join_split sep s : join [sep] (split sep s) = s.
Proof.
  induction s as [|c t IH]; simpl; [reflexivity|].
  destruct (N.eqb_spec c sep) as [->|Hne].
  - pose proof (split_not_nil sep t) as Hnn.
    destruct (split sep t) as [|seg segs]; [contradiction|].
    simpl in *. now rewrite IH.
  - destruct (split sep t) as [|seg segs] eqn:E.
    + now destruct (split_not_nil sep t).
    + rewrite <- IH. destruct segs; reflexivity.
Qed.

Lemma split_free sep s : Forall (fun seg => ~ In sep seg) (split sep s).
Proof.
  induction s as [|c t IH]; simpl.
  - constructor; [intros []|constructor].
  - destruct (N.eqb_spec c sep) as [->|Hne].
    + constructor; [intros []|exact IH].
    + destruct (split sep t) as [|seg segs].
      * constructor; [|constructor]. intros [H|[]]. congruence.
      * inversion IH as [|? ? Hseg Hsegs]; subst.
        constructor; [|exact Hsegs]. intros [H|H]; [congruence|auto].
Qed.

Lemma lstrip_spec s :
  exists l, s = l ++ lstrip s /\ blank l /\
    (forall c rest, lstrip s = c :: rest -> isspace c = false).
Proof.
  induction s as [|c t (l & Hs & Hl & Hh)]; simpl.
  - exists []. repeat split; [constructor|discriminate].
  - destruct (isspace c) eqn:Ec.
    + exists (c :: l). repeat split.
      * simpl. now rewrite <- Hs.
      * now constructor.
      * exact Hh.
    + exists []. repeat split; [constructor|].
      intros c' rest [= <- _]. exact Ec.
Qed.

Lemma rstrip_spec s : trimmed_right s (rstrip s).
Proof.
  induction s as [|c t (r & Hs & Hr & Hl)]; simpl.
  - exists []. repeat split; [constructor|]. now intros [|? ?] ? ?.
  - destruct (rstrip t) as [|x t'] eqn:Et.
    + simpl in Hs. subst t. destruct (isspace c) eqn:Ec.
      * exists (c :: r). repeat split; [now constructor|]. now intros [|? ?] ? ?.
      * exists r. repeat split; [exact Hr|].
        intros [|? [|? ?]] c' [= ]; congruence.
    + exists r. repeat split; [simpl; now rewrite Hs|exact Hr|].
      intros [|y pre] c' E; [discriminate|].
      injection E as -> E. now apply (Hl pre).
Qed.

Lemma strip_spec s : trimmed s (strip s).
Proof.
  unfold strip.
  destruct (rstrip_spec s) as (r & Hs & Hr & Hlast).
  destruct (lstrip_spec (rstrip s)) as (l & Hl & Hbl & Hhead).
  exists l, r. repeat split; try assumption.
  - rewrite Hs at 1. rewrite Hl at 1. now rewrite <- app_assoc.
  - intros pre c E. apply (Hlast (l ++ pre)).
    rewrite Hl at 1. rewrite E. now rewrite app_assoc.
Qed.

(** The trimmed text is empty exactly when every character is whitespace. *)
Lemma strip_nil_iff s : strip s = [] <-> blank s.
Proof.
  destruct (strip_spec s) as (l & r & Hs & Hl & Hr & Hh & _).
  split.
  - intros E. rewrite E in Hs. simpl in Hs. subst s.
    unfold blank. rewrite Forall_app. now split.
  - intros Hb. destruct (strip s) as [|c rest] eqn:E; [reflexivity|].
    specialize (Hh c rest eq_refl).
    subst s. unfold blank in Hb. rewrite Forall_app in Hb.
    destruct Hb as [_ Hb]. inversion Hb; congruence.
Qed.

(** ** Laws of the step monad *)

Arguments py : simpl never.
Arguments nl : simpl never.

Lemma bind_Ret {A B} (a : A) l (f : A -> M B) :
  bind (Ret a, l) f = (result (f a), l ++ events (f a)).
Proof. unfold bind, result, events. now destruct (f a). Qed.

Lemma bind_Raise {A B} e l (f : A -> M B) : bind (Raise e, l) f = (Raise e, l).
Proof. reflexivity. Qed.

Lemma all_bind {A B} Q (m : M A) (f : A -> M B) :
  all_events Q m -> (forall a, all_events Q (f a)) -> all_events Q (bind m f).
Proof.
  unfold all_events, events. destruct m as [[a|e] l]; simpl; [|tauto].
  intros Hl Hf. specialize (Hf a). destruct (f a) as [o l2]. simpl in *.
  rewrite forallb_app, Hl, Hf. reflexivity.
Qed.

Lemma all_try {A} Q (body : M A) catches handler :
  all_events Q body -> (forall e, all_events Q (handler e)) ->
  all_events Q (try_except body catches handler).
Proof.
  unfold all_events, events. destruct body as [[a|e] l]; simpl; [tauto|].
  intros Hl Hh. destruct (catches e); [|exact Hl].
  specialize (Hh e). destruct (handler e) as [o l2]. simpl in *.
  rewrite forallb_app, Hl, Hh. reflexivity.
Qed.

Lemma all_lift {A} Q (o : outcome A) : all_events Q (lift o).
Proof. reflexivity. Qed.

Lemma all_ret {A} Q (a : A) : all_events Q (ret a).
Proof. reflexivity. Qed.

Lemma all_raise {A} Q e : all_events Q (@raise A e).
Proof. reflexivity. Qed.

Lemma all_emit Q e : Q e = true -> all_events Q (emit e).
Proof. unfold all_events. simpl. now intros ->. Qed.

(** *** Printing *)

Lemma accepts_app P a b :
  stdout_accepts P (a ++ b) = stdout_accepts P a && stdout_accepts P b.
Proof. apply forallb_app. Qed.

Lemma accepts_ascii P s : forallb is_ascii s = true -> stdout_accepts P s = true.
Proof.
  unfold stdout_accepts. induction s as [|c s IH]; [reflexivity|].
  simpl. intros H. apply andb_prop in H as [Hc Hs]. now rewrite Hc, IH.
Qed.

Lemma accepts_stdout_error P s : stdout_accepts P (stdout_error P s) = true.
Proof. apply accepts_ascii, stdout_error_ascii. Qed.

Lemma accepts_encode_error P s : stdout_accepts P (encode_error P s) = true.
Proof. apply accepts_ascii, encode_error_ascii. Qed.

Lemma print_ok P line :
  stdout_accepts P line = true -> print P line = (Ret tt, [Printed line]).
Proof. unfold print. now intros ->. Qed.

Lemma print_fails P line :
  stdout_accepts P line = false ->
  print P line = (Raise (Exn UnicodeEncodeError (stdout_error P line)), []).
Proof. unfold print. now intros ->. Qed.

Lemma all_print Q P line : Q (Printed line) = true -> all_events Q (print P line).
Proof.
  intros H. unfold print, all_events.
  destruct (stdout_accepts P line); simpl; [now rewrite H|reflexivity].
Qed.

(** Splits the acceptance of a line into that of its variable parts. *)
Ltac norm_accepts :=
  rewrite ?accepts_app;
  repeat match goal with
  | |- context [stdout_accepts ?P (py ?s)] =>
      rewrite (accepts_ascii P (py s) eq_refl)
  | |- context [stdout_accepts ?P nl] =>
      rewrite (accepts_ascii P nl eq_refl)
  | |- context [stdout_accepts ?P (stdout_error ?P ?s)] =>
      rewrite (accepts_stdout_error P s)
  | |- context [stdout_accepts ?P (encode_error ?P ?s)] =>
      rewrite (accepts_encode_error P s)
  end;
  rewrite ?andb_true_l, ?andb_true_r.

Ltac all_events_tac :=
  repeat first
    [ apply all_lift | apply all_ret | apply all_raise
    | apply all_emit; reflexivity
    | apply all_print; reflexivity
    | apply all_bind; [|intros ?]
    | apply all_try; [|intros ?]
    | match goal with
      | |- all_events _ (if ?b then _ else _) => destruct b
      | |- all_events _ (match ?x with _ => _ end) => destruct x
      end ].

(** ** What each step may do *)

(** ** The steps, case by case *)

Section Steps.

Context (P : platform).

Lemma finder_events_own api query :
  all_events (step_event Finder) (find_trending_product P api query).
Proof. unfold find_trending_product. all_events_tac. Qed.

Lemma keywords_events_own api p :
  all_events (step_event KeywordGenerator) (get_seo_keywords P api p).
Proof. unfold get_seo_keywords. all_events_tac. Qed.

Lemma article_events_own api p kws :
  all_events (step_event ArticleWriter) (create_blog_post P api p kws).
Proof. unfold create_blog_post. all_events_tac. Qed.

Lemma publisher_events_own p blog :
  all_events (step_event Publisher) (save_as_markdown P p blog).
Proof. unfold save_as_markdown, open_w, write. all_events_tac. Qed.

End Steps.

(** ** The steps, case by case *)

Section Cases.

Context (P : platform).

(** *** Finder *)

Ltac finder_step :=
  cbn -[py nl app shopping_results dict_lookup str_contains existsb print
        stdout_accepts fetch_json is_RequestException].

Lemma accepts_finder_line query :
  stdout_accepts P (finder_line query) = stdout_accepts P query.
Proof. unfold finder_line. now norm_accepts. Qed.

Lemma find_at_banner api query :
  stdout_accepts P query = false ->
  find_trending_product P api query
  = (Raise (print_exn P (finder_line query)), [Entered Finder]).
Proof.
  intros Hq. unfold find_trending_product.
  rewrite print_fails by (norm_accepts; exact Hq). reflexivity.
Qed.

Lemma find_on_caught api e query :
  stdout_accepts P query = true ->
  fetch_json api = Raise e -> is_RequestException e = true ->
  stdout_accepts P (exn_msg e) = true ->
  find_trending_product P api query
  = (Ret None, finder_banner query ++ [fetch_failed (exn_msg e)]).
Proof.
  intros Hq Hf He Hm. unfold find_trending_product.
  rewrite print_ok by (norm_accepts; exact Hq).
  finder_step. rewrite Hf. finder_step. rewrite He.
  rewrite print_ok by (norm_accepts; exact Hm). reflexivity.
Qed.

Lemma find_in_handler api e query :
  stdout_accepts P query = true ->
  fetch_json api = Raise e -> is_RequestException e = true ->
  stdout_accepts P (exn_msg e) = false ->
  find_trending_product P api query
  = (Raise (print_exn P (fetch_failed_line (exn_msg e))), finder_banner query).
Proof.
  intros Hq Hf He Hm. unfold find_trending_product.
  rewrite print_ok by (norm_accepts; exact Hq).
  finder_step. rewrite Hf. finder_step. rewrite He.
  rewrite print_fails by (norm_accepts; exact Hm). reflexivity.
Qed.

Lemma find_on_uncaught api e query :
  stdout_accepts P query = true ->
  fetch_json api = Raise e -> is_RequestException e = false ->
  find_trending_product P api query = (Raise e, finder_banner query).
Proof.
  intros Hq Hf He. unfold find_trending_product.
  rewrite print_ok by (norm_accepts; exact Hq).
  finder_step. rewrite Hf. finder_step. rewrite He. reflexivity.
Qed.

Ltac run_finder Hq H :=
  unfold find_trending_product;
  rewrite print_ok by (norm_accepts; exact Hq);
  cbn -[py nl app shopping_results dict_lookup print stdout_accepts];
  rewrite H;
  cbn -[py nl app shopping_results dict_lookup print stdout_accepts].

Lemma find_on_absent d query :
  stdout_accepts P query = true ->
  dict_lookup d shopping_results = None ->
  find_trending_product P (BodyJson (VDict d)) query
  = (Ret None, finder_banner query ++ [no_product]).
Proof.
  intros Hq H. run_finder Hq H.
  rewrite print_ok by now norm_accepts. reflexivity.
Qed.

Lemma find_on_empty d query :
  stdout_accepts P query = true ->
  dict_lookup d shopping_results = Some (VList []) ->
  find_trending_product P (BodyJson (VDict d)) query
  = (Ret None, finder_banner query ++ [no_product]).
Proof.
  intros Hq H. run_finder Hq H.
  rewrite print_ok by now norm_accepts. reflexivity.
Qed.

Lemma find_on_object d entry rest query :
  stdout_accepts P query = true ->
  dict_lookup d shopping_results = Some (VList (VDict entry :: rest)) ->
  stdout_accepts P (found_line P (entry_info entry)) = true ->
  find_trending_product P (BodyJson (VDict d)) query
  = (Ret (Some (entry_info entry)),
     finder_banner query ++ [found P (entry_info entry)]).
Proof.
  intros Hq H Hl. run_finder Hq H.
  rewrite print_ok by exact Hl. reflexivity.
Qed.

Lemma find_at_found d entry rest query :
  stdout_accepts P query = true ->
  dict_lookup d shopping_results = Some (VList (VDict entry :: rest)) ->
  stdout_accepts P (found_line P (entry_info entry)) = false ->
  find_trending_product P (BodyJson (VDict d)) query
  = (Raise (print_exn P (found_line P (entry_info entry))), finder_banner query).
Proof.
  intros Hq H Hl. run_finder Hq H.
  rewrite print_fails by exact Hl. reflexivity.
Qed.

(** An entry that is not an object has no [get]: the [AttributeError] is
    not a [RequestException] and leaves the function. *)
Lemma find_on_non_object d x rest query :
  stdout_accepts P query = true ->
  dict_lookup d shopping_results = Some (VList (x :: rest)) ->
  (forall entry, x <> VDict entry) ->
  find_trending_product P (BodyJson (VDict d)) query
  = (Raise (Exn AttributeError []), finder_banner query).
Proof.
  intros Hq H Hx. run_finder Hq H.
  destruct x; try reflexivity. now destruct (Hx entries).
Qed.


Ltac body_step :=
  cbn -[py nl app shopping_results dict_lookup str_contains existsb print
        stdout_accepts].

Ltac shape_raises Hq c :=
  eapply (EndsOnShape P _ _ _ c); [exact Hq|reflexivity|tauto].

Ltac no_product Hq :=
  rewrite print_ok by (now norm_accepts);
  eapply EndsNoProduct; [exact Hq|reflexivity|];
  let d := fresh in let x := fresh in let rest := fresh in
  let E := fresh in let H := fresh in
  intros (d & x & rest & E & H);
  try discriminate E; injection E as <-; congruence.

(** The Finder ends in one of the eight ways. *)
Lemma find_endings api query :
  finder_ending P api query (find_trending_product P api query).
Proof.
  destruct (stdout_accepts P query) eqn:Hq.
  2: { rewrite (find_at_banner api query Hq). now constructor. }
  assert (Hraise : forall e, fetch_json api = Raise e ->
            finder_ending P api query (find_trending_product P api query)).
  { intros e Hf. destruct (is_RequestException e) eqn:He.
    - destruct (stdout_accepts P (exn_msg e)) eqn:Hm.
      + rewrite (find_on_caught api e query Hq Hf He Hm). now apply EndsCaught.
      + rewrite (find_in_handler api e query Hq Hf He Hm). now apply EndsInHandler.
    - rewrite (find_on_uncaught api e query Hq Hf He). now apply EndsUncaught. }
  destruct api as [msg|msg|msg|e|data]; try (eapply Hraise; reflexivity).
  clear Hraise.
  destruct data as [ |b|n|r|s|l|d]; unfold find_trending_product;
    rewrite print_ok by (norm_accepts; exact Hq).
  1-4: shape_raises Hq TypeError.
  - body_step. destruct (str_contains shopping_results s); body_step.
    + shape_raises Hq TypeError.
    + no_product Hq.
  - body_step. destruct (existsb _ l); body_step.
    + shape_raises Hq TypeError.
    + no_product Hq.
  - body_step.
    destruct (dict_lookup d shopping_results) as [v|] eqn:E; body_step.
    2: { no_product Hq. }
    destruct v as [ |b|n|r|s|l|d']; body_step.
    1-4: shape_raises Hq TypeError.
    + destruct s as [|c s]; body_step.
      * no_product Hq.
      * shape_raises Hq AttributeError.
    + destruct l as [|x l]; body_step.
      * no_product Hq.
      * destruct x; body_step.
        7: { destruct (stdout_accepts P (found_line P (entry_info entries))) eqn:Hl.
             - rewrite print_ok by exact Hl.
               now eapply (EndsFound P _ _ d entries l).
             - rewrite print_fails by exact Hl.
               now eapply (EndsAtFound P _ _ d entries l). }
        all: shape_raises Hq AttributeError.
    + destruct d' as [|kv d']; body_step.
      * no_product Hq.
      * shape_raises Hq KeyError.
Qed.


(** *** Keyword Generator and Article Writer *)

Ltac gen_step :=
  cbn -[py nl app print stdout_accepts keyword_prompt blog_prompt join
        List.map split strip].

Lemma keywords_on_text reply p :
  stdout_accepts P (join (py ", ") (List.map strip (split comma reply))) = true ->
  get_seo_keywords P (GenText reply) p
  = (Ret (Some (List.map strip (split comma reply))),
     keywords_banner P p
     ++ [Printed (py "-> Keywords generated: "
                     ++ join (py ", ") (List.map strip (split comma reply)))]).
Proof.
  intros H. unfold get_seo_keywords.
  rewrite print_ok by (now norm_accepts). gen_step.
  rewrite print_ok by (norm_accepts; exact H). reflexivity.
Qed.

(** The keywords cannot be printed: line 71 raises inside the [try], and
    the call that succeeded is reported as a failure. *)
Lemma keywords_at_listing reply p :
  stdout_accepts P (join (py ", ") (List.map strip (split comma reply))) = false ->
  get_seo_keywords P (GenText reply) p
  = (Ret None,
     keywords_banner P p
     ++ [Printed (keywords_failed_line
                    (stdout_error P
                       (keywords_line (List.map strip (split comma reply)))))]).
Proof.
  intros H. unfold get_seo_keywords.
  rewrite print_ok by (now norm_accepts). gen_step.
  rewrite print_fails by (norm_accepts; exact H). gen_step.
  rewrite print_ok by (now norm_accepts). reflexivity.
Qed.

Lemma keywords_on_error e p :
  stdout_accepts P (exn_msg e) = true ->
  get_seo_keywords P (GenFails e) p
  = (Ret None,
     keywords_banner P p
     ++ [Printed (py "[ERROR] Failed to generate keywords from Google Gemini: "
                     ++ exn_msg e)]).
Proof.
  intros H. unfold get_seo_keywords.
  rewrite print_ok by (now norm_accepts). gen_step.
  rewrite print_ok by (norm_accepts; exact H). reflexivity.
Qed.

Lemma keywords_in_handler e p :
  stdout_accepts P (exn_msg e) = false ->
  get_seo_keywords P (GenFails e) p
  = (Raise (print_exn P (keywords_failed_line (exn_msg e))), keywords_banner P p).
Proof.
  intros H. unfold get_seo_keywords.
  rewrite print_ok by (now norm_accepts). gen_step.
  rewrite print_fails by (norm_accepts; exact H). reflexivity.
Qed.

Lemma article_on_text reply p kws :
  create_blog_post P (GenText reply) p kws
  = (Ret (Some (strip reply)),
     article_banner P p kws ++ [Printed (py "-> Blog post written successfully.")]).
Proof.
  unfold create_blog_post.
  rewrite print_ok by (now norm_accepts). gen_step.
  rewrite print_ok by (now norm_accepts). reflexivity.
Qed.

Lemma article_on_error e p kws :
  stdout_accepts P (exn_msg e) = true ->
  create_blog_post P (GenFails e) p kws
  = (Ret None,
     article_banner P p kws
     ++ [Printed (py "[ERROR] Failed to write blog post from Google Gemini: "
                     ++ exn_msg e)]).
Proof.
  intros H. unfold create_blog_post.
  rewrite print_ok by (now norm_accepts). gen_step.
  rewrite print_ok by (norm_accepts; exact H). reflexivity.
Qed.

Lemma article_in_handler e p kws :
  stdout_accepts P (exn_msg e) = false ->
  create_blog_post P (GenFails e) p kws
  = (Raise (print_exn P (article_failed_line (exn_msg e))), article_banner P p kws).
Proof.
  intros H. unfold create_blog_post.
  rewrite print_ok by (now norm_accepts). gen_step.
  rewrite print_fails by (norm_accepts; exact H). reflexivity.
Qed.

(** *** Publisher *)

Lemma keeps_char c : keeps P (VStr [c]) = Ret (allowed P c).
Proof.
  unfold keeps, allowed, str_isalnum. change (py " _-") with [32; 95; 45]%N.
  simpl. f_equal.
  destruct (isalnum P c), (c =? 32)%N, (c =? 95)%N, (c =? 45)%N; reflexivity.
Qed.

Lemma join_kept_chars t :
  join_kept P (List.map (fun c => VStr [c]) t) = Ret (List.filter (allowed P) t).
Proof.
  induction t as [|c t IH]; [reflexivity|].
  cbn [List.map join_kept List.filter]. rewrite keeps_char, IH.
  now destruct (allowed P c).
Qed.

Lemma safe_filename_str t :
  safe_filename P (VStr t) = Ret (rstrip (List.filter (allowed P) t)).
Proof. unfold safe_filename. cbn [py_iter]. now rewrite join_kept_chars. Qed.

Ltac save_step :=
  cbn -[py nl app full_content existsb print stdout_accepts].

(** The six ways the Publisher ends. *)
Lemma save_cases p blog :
  match safe_filename P (title p) with
  | Raise e => save_as_markdown P p blog = (Raise e, publisher_banner)
  | Ret stem =>
      let filename := stem ++ py ".md" in
      let content := full_content P p blog in
      match open_error P filename with
      | Some msg =>
          if stdout_accepts P msg then
            save_as_markdown P p blog
            = (Ret tt, publisher_banner ++ [save_failed msg])
          else
            save_as_markdown P p blog
            = (Raise (print_exn P (save_failed_line msg)), publisher_banner)
      | None =>
          if existsb is_surrogate content then
            save_as_markdown P p blog
            = (Ret tt, publisher_banner
                       ++ [Opened filename; save_failed (encode_error P content)])
          else if stdout_accepts P filename then
            save_as_markdown P p blog
            = (Ret tt, publisher_banner
                       ++ [Opened filename; Wrote filename content]
                       ++ saved filename)
          else
            save_as_markdown P p blog
            = (Ret tt, publisher_banner
                       ++ [Opened filename; Wrote filename content;
                           save_failed (stdout_error P (saved_line filename))])
      end
  end.
Proof.
  unfold save_as_markdown, open_w, write.
  rewrite print_ok by (now norm_accepts).
  destruct (safe_filename P (title p)) as [stem|e]; [|reflexivity].
  save_step.
  destruct (open_error P (stem ++ py ".md")) as [msg|].
  - save_step. destruct (stdout_accepts P msg) eqn:Hm.
    + rewrite print_ok by (norm_accepts; exact Hm). reflexivity.
    + rewrite print_fails by (norm_accepts; exact Hm). reflexivity.
  - save_step.
    destruct (existsb is_surrogate (full_content P p blog)).
    + save_step. rewrite print_ok by (now norm_accepts). reflexivity.
    + save_step. destruct (stdout_accepts P (stem ++ py ".md")) eqn:Hn.
      * rewrite print_ok by (norm_accepts; now rewrite accepts_app in Hn;
                             apply andb_prop in Hn as [-> _]).
        save_step. rewrite print_ok by (now norm_accepts). reflexivity.
      * rewrite print_fails.
        2: { norm_accepts. rewrite accepts_app in Hn.
             rewrite (accepts_ascii P (py ".md") eq_refl), andb_true_r in Hn.
             exact Hn. }
        save_step. rewrite print_ok by (now norm_accepts). reflexivity.
Qed.

(** The Publisher opens at most one file, and writes it at most once. *)
Lemma save_file_ops p blog :
  file_ops (events (save_as_markdown P p blog)) = []
  \/ exists name,
       file_ops (events (save_as_markdown P p blog)) = [Opened name]
       \/ exists content,
            file_ops (events (save_as_markdown P p blog))
            = [Opened name; Wrote name content].
Proof.
  pose proof (save_cases p blog) as H.
  destruct (safe_filename P (title p)) as [stem|e]; cbn zeta in H.
  - destruct (open_error P (stem ++ py ".md")).
    + destruct (stdout_accepts P _); rewrite H; now left.
    + destruct (existsb is_surrogate (full_content P p blog));
        [|destruct (stdout_accepts P _)]; rewrite H; right;
        eexists; [left|right; eexists|right; eexists]; reflexivity.
  - rewrite H. now left.
Qed.

End Cases.
(** ** The runs of [main] *)

Lemma main_shape P r query : run_shape P r query (main P r query).
Proof.
  unfold main.
  destruct (find_trending_product P (search r) query) as [[[p|]|e] l1] eqn:E1;
    cbn [bind ret].
  2: { rewrite app_nil_r. now apply RunNoProduct. }
  2: { now apply RunFinderRaises. }
  destruct (get_seo_keywords P (keywords_reply r) p) as [[[[|k ks]|]|e] l2] eqn:E2;
    cbn [bind ret].
  1, 3: rewrite app_nil_r; eapply RunNoKeywords; eauto.
  2: { eapply RunKeywordsRaise; eauto. }
  destruct (create_blog_post P (article_reply r) p (k :: ks))
    as [[[[|c cs]|]|e] l3] eqn:E3; cbn [bind ret].
  1, 3: rewrite app_nil_r; eapply RunNoArticle; eauto.
  2: { eapply RunArticleRaises; eauto. }
  destruct (save_as_markdown P p (c :: cs)) as [o l4] eqn:E4.
  eapply RunPublisher; eauto.
Qed.

(** ** Reading a log *)

Lemma own_entered s l s' :
  forallb (step_event s) l = true -> invoked s' l -> s' = s.
Proof.
  unfold invoked. rewrite forallb_forall. intros H Hin.
  specialize (H _ Hin). simpl in H. now destruct s', s.
Qed.

Lemma own_file_ops s l :
  forallb (step_event s) l = true -> s <> Publisher -> file_ops l = [].
Proof.
  intros H Hs. induction l as [|e l IH]; [reflexivity|].
  simpl in H. apply andb_prop in H as [He Hl]. unfold file_ops in *. simpl.
  destruct e; simpl in *; auto; destruct s; try discriminate; congruence.
Qed.

Lemma own_generated s l prompt :
  forallb (step_event s) l = true -> In (Generated prompt) l ->
  s = KeywordGenerator \/ s = ArticleWriter.
Proof.
  rewrite forallb_forall. intros H Hin. specialize (H _ Hin). simpl in H.
  destruct s; try discriminate; auto.
Qed.

Lemma file_ops_app l1 l2 : file_ops (l1 ++ l2) = file_ops l1 ++ file_ops l2.
Proof. apply List.filter_app. Qed.

Lemma replay_file_ops l fs : replay (file_ops l) fs = replay l fs.
Proof.
  revert fs. induction l as [|e l IH]; intros fs; [reflexivity|].
  unfold file_ops in *. simpl. destruct e; simpl; apply IH.
Qed.

Lemma replay_open_write name content fs :
  replay [Opened name; Wrote name content] fs = <[name := content]> fs.
Proof.
  unfold replay. simpl. rewrite lookup_insert_eq. simpl.
  apply insert_insert_eq.
Qed.

(** The events of the first three steps, as the lemmas above give them. *)
Lemma finder_log P r query o l :
  find_trending_product P (search r) query = (o, l) ->
  forallb (step_event Finder) l = true.
Proof. intros E. pose proof (finder_events_own P (search r) query) as H.
  unfold all_events in H. now rewrite E in H. Qed.

Lemma keywords_log P api p o l :
  get_seo_keywords P api p = (o, l) ->
  forallb (step_event KeywordGenerator) l = true.
Proof. intros E. pose proof (keywords_events_own P api p) as H.
  unfold all_events in H. now rewrite E in H. Qed.

Lemma article_log P api p kws o l :
  create_blog_post P api p kws = (o, l) ->
  forallb (step_event ArticleWriter) l = true.
Proof. intros E. pose proof (article_events_own P api p kws) as H.
  unfold all_events in H. now rewrite E in H. Qed.

(** ** C1: a failed step ends the run *)

Ltac same_run :=
  repeat match goal with
  | H1 : ?m = (_, _), H2 : result ?m = _ |- _ =>
      rewrite H1 in H2; unfold result in H2; simpl in H2
  | H : Ret _ = Ret _ |- _ => injection H as H; subst
  | H : Some _ = Some _ |- _ => injection H as H; subst
  | H : Ret _ = Raise _ |- _ => discriminate H
  | H : Raise _ = Ret _ |- _ => discriminate H
  | H : Some _ = None |- _ => discriminate H
  | H : None = Some _ |- _ => discriminate H
  | H : _ \/ _ |- _ => destruct H
  end.

(** C1. When a step returns [None], the run ends there: [main] returns,
    no later step is entered, and no file is opened or written.  When the
    Finder is the one that fails, no generation request is sent either. *)
Theorem failure_stops_pipeline P r query s :
  fails_at P r query s ->
  result (main P r query) = Ret tt
  /\ (forall s', step_index s < step_index s' ->
        ~ invoked s' (events (main P r query)))
  /\ file_ops (events (main P r query)) = []
  /\ (s = Finder ->
        forall prompt, ~ In (Generated prompt) (events (main P r query))).
Proof.
  intros Hfail.
  destruct (main_shape P r query) as
    [e l1 E1|l1 E1|p l1 e l2 E1 E2|p l1 kws l2 E1 E2 Hk
    |p l1 k ks l2 e l3 E1 E2 E3|p l1 k ks l2 blog l3 E1 E2 E3 Hb
    |p l1 k ks l2 c cs l3 o l4 E1 E2 E3 E4];
    pose proof (finder_log _ _ _ _ _ E1) as O1;
    try pose proof (keywords_log _ _ _ _ _ E2) as O2;
    try pose proof (article_log _ _ _ _ _ _ E3) as O3;
    unfold result, events; simpl fst; simpl snd;
    destruct s; simpl in Hfail;
    try destruct Hfail as (p' & Hf1 & Hf2);
    try destruct Hf2 as (kws' & Hf2 & Hf3);
    try contradiction; same_run; try discriminate.
  all: split; [reflexivity|split; [|split]].
  all: try discriminate.
  all: try (intros s' Hlt Hin; unfold invoked in Hin;
            rewrite ?in_app_iff in Hin;
            repeat match goal with
            | H : _ \/ _ |- _ => destruct H
            | H : In (Entered _) ?l, O : forallb _ ?l = true |- _ =>
                apply (own_entered _ _ _ O) in H; subst; simpl in Hlt; lia
            end; fail).
  all: try (rewrite ?file_ops_app;
            repeat match goal with
            | O : forallb (step_event _) ?l = true |- context [file_ops ?l] =>
                rewrite (own_file_ops _ _ O) by discriminate
            end; reflexivity).
  all: intros _ prompt Hin; rewrite ?in_app_iff in Hin;
       destruct (own_generated _ _ _ O1 Hin); discriminate.
Qed.

Lemma failure_stops_pipeline_witness :
  fails_at plain_platform quota_responses shoes KeywordGenerator
  /\ ~ invoked ArticleWriter (events (main plain_platform quota_responses shoes))
  /\ ~ invoked Publisher (events (main plain_platform quota_responses shoes))
  /\ file_ops (events (main plain_platform quota_responses shoes)) = [].
Proof.
  assert (H : fails_at plain_platform quota_responses shoes KeywordGenerator).
  { exists acme. split; reflexivity. }
  destruct (failure_stops_pipeline _ _ _ _ H) as (_ & Hlater & Hfiles & _).
  split; [exact H|]. split; [|split; [|exact Hfiles]].
  - apply Hlater. simpl. lia.
  - apply Hlater. simpl. lia.
Defined.

(** ** C2: what the Finder returns *)

(** C2 as stated fails on a list whose first element is not an object:
    the body [{"shopping_results": [5]}] holds a non-empty list, and the
    Finder raises [AttributeError] instead of returning a product. *)
Lemma finder_non_object_entry_raises :
  has_results (search_body [VInt 5])
  /\ result (find_trending_product plain_platform
               (BodyJson (search_body [VInt 5])) shoes)
     = Raise (Exn AttributeError [])
  /\ ~ exists info,
         result (find_trending_product plain_platform
                   (BodyJson (search_body [VInt 5])) shoes)
         = Ret (Some info).
Proof.
  split; [|split].
  - exists [(shopping_results, VList [VInt 5])], (VInt 5), []. split; reflexivity.
  - reflexivity.
  - intros [info H]. discriminate H.
Qed.

(** The Finder prints the title and the seller inside a [try] that catches
    request errors only: a title that standard output cannot encode makes
    the Finder raise instead of returning the product. *)
Lemma finder_unprintable_title_raises :
  exists msg,
    result (find_trending_product plain_platform
              (BodyJson (search_body
                 [VDict [(py "title", VStr (py "Acme " ++ [55296%N] ++ py " Shoe"));
                         (py "source", VStr (py "Acme Store"))]])) shoes)
    = Raise (Exn UnicodeEncodeError msg).
Proof. eexists. vm_compute. reflexivity. Qed.

(** C2, amended.  When standard output can encode the query, on a parsed
    body that is an object: if ["shopping_results"] is a non-empty list
    whose first element is an object, and standard output can encode that
    element's title and source as line 44 prints them, the Finder returns
    the product whose four fields are the values of that element under
    ["title"], ["price"], ["source"] and ["link"] ([None] for a key the
    element lacks); if ["shopping_results"] is missing or an empty list,
    the Finder returns [None]. *)
Theorem finder_returns_first_entry P d query :
  stdout_accepts P query = true ->
  (forall entry rest,
      dict_lookup d shopping_results = Some (VList (VDict entry :: rest)) ->
      stdout_accepts P
        (py_str P (default VNone (dict_lookup entry (py "title")))) = true ->
      stdout_accepts P
        (py_str P (default VNone (dict_lookup entry (py "source")))) = true ->
      exists info,
        result (find_trending_product P (BodyJson (VDict d)) query)
        = Ret (Some info)
        /\ title info = default VNone (dict_lookup entry (py "title"))
        /\ price info = default VNone (dict_lookup entry (py "price"))
        /\ source info = default VNone (dict_lookup entry (py "source"))
        /\ link info = default VNone (dict_lookup entry (py "link")))
  /\ (dict_lookup d shopping_results = None
      \/ dict_lookup d shopping_results = Some (VList []) ->
      result (find_trending_product P (BodyJson (VDict d)) query) = Ret None).
Proof.
  intros Hq. split.
  - intros entry rest H Ht Hs. exists (entry_info entry).
    rewrite (find_on_object P d entry rest query Hq H).
    + repeat split.
    + unfold found_line, entry_info. cbn [title source]. norm_accepts.
      now rewrite Ht, Hs.
  - intros [H|H].
    + now rewrite (find_on_absent P d query Hq H).
    + now rewrite (find_on_empty P d query Hq H).
Qed.

Lemma finder_returns_first_entry_witness :
  stdout_accepts plain_platform shoes = true
  /\ dict_lookup [(shopping_results, VList [VDict acme_entry])] shopping_results
     = Some (VList [VDict acme_entry])
  /\ exists info,
       result (find_trending_product plain_platform (search acme_responses) shoes)
       = Ret (Some info)
       /\ title info = VStr (py "Acme Trail Shoe: X1!")
       /\ link info = VStr (py "https://example.com/x1").
Proof.
  assert (Hq : stdout_accepts plain_platform shoes = true) by reflexivity.
  split; [exact Hq|]. split; [reflexivity|].
  destruct (finder_returns_first_entry plain_platform
              [(shopping_results, VList [VDict acme_entry])] shoes Hq) as [H _].
  destruct (H acme_entry [] eq_refl eq_refl eq_refl)
    as (info & Hr & Ht & _ & _ & Hl).
  exists info. split; [exact Hr|]. split; [exact Ht|exact Hl].
Defined.

(** ** C3: when the Finder returns [None] *)


(** The decoder can refuse a body with an error that is not a request
    error: it leaves the Finder. *)
Lemma finder_decoder_error_escapes msg :
  result (find_trending_product plain_platform
            (FetchRaises (Exn ValueError msg)) shoes)
  = Raise (Exn ValueError msg).
Proof. reflexivity. Qed.

(** The query is printed before the [try]: one that standard output cannot
    encode ends the Finder before the request. *)
Lemma finder_unprintable_query_raises :
  exists msg,
    find_trending_product plain_platform (GetFails (py "timed out"))
      (py "caf" ++ [56553%N] ++ py " shoes")
    = (Raise (Exn UnicodeEncodeError msg), [Entered Finder]).
Proof. eexists. vm_compute. reflexivity. Qed.



(** ** C4: exceptions that leave a step *)

(** C4 fails on a product without a title.  The search body
    [{"shopping_results": [{"price": .., "source": .., "link": ..}]}] makes
    the Finder return a product whose title is [None]; both generation
    requests succeed; the Publisher then iterates over the title before its
    [try] block, and the [TypeError] leaves [save_as_markdown] and [main].
    No file is opened. *)
Theorem missing_title_escapes :
  result (find_trending_product plain_platform (search untitled_responses) shoes)
  = Ret (Some (entry_info untitled_entry))
  /\ title (entry_info untitled_entry) = VNone
  /\ result (save_as_markdown plain_platform (entry_info untitled_entry)
               (py "Meet the trail shoe."))
     = Raise (Exn TypeError [])
  /\ result (main plain_platform untitled_responses shoes)
     = Raise (Exn TypeError [])
  /\ invoked Publisher (events (main plain_platform untitled_responses shoes))
  /\ file_ops (events (main plain_platform untitled_responses shoes)) = [].
Proof.
  repeat split; try reflexivity.
  unfold invoked. vm_compute. tauto.
Qed.

(** ** C5: the keyword list *)

(** C5 as stated fails on a reply that standard output cannot encode: the
    call succeeds, line 71 raises inside the [try] when it prints the
    keywords, and the Keyword Generator returns [None] instead of the two
    trimmed segments.  So it is on a UTF-8 console for a reply with a lone
    surrogate, and on a Latin-1 console for a reply with an emoji. *)
Lemma keywords_unprintable_reply_fails :
  List.map strip (split comma unprintable_reply)
  = [py "trail " ++ [55296%N] ++ py " shoes"; py "running"]
  /\ result (get_seo_keywords plain_platform (GenText unprintable_reply) acme)
     = Ret None
  /\ List.map strip (split comma emoji_reply)
     = [py "trail shoes " ++ [128095%N]; py "running"]
  /\ result (get_seo_keywords latin1_platform (GenText emoji_reply) acme)
     = Ret None.
Proof. repeat split; vm_compute; reflexivity. Qed.

(** C5, amended.  On a successful generation call, the keywords are, in
    order, the trimmed segments of the reply between its commas: the
    segments are free of commas and joined by commas they give the reply
    back, and each keyword is its segment without the whitespace at both
    ends.  The Keyword Generator returns them when standard output can
    encode the line that lists them, and [None] when it cannot.  The reply
    of the example gives the three phrases. *)
Theorem keywords_split_and_trimmed P p reply :
  (exists segments keywords,
      segments <> []
      /\ join [comma] segments = reply
      /\ Forall (fun seg => ~ In comma seg) segments
      /\ Forall2 trimmed segments keywords
      /\ (stdout_accepts P (join (py ", ") keywords) = true ->
          result (get_seo_keywords P (GenText reply) p) = Ret (Some keywords))
      /\ (stdout_accepts P (join (py ", ") keywords) = false ->
          result (get_seo_keywords P (GenText reply) p) = Ret None))
  /\ result (get_seo_keywords P
               (GenText (py "running shoes, best trail shoes, lightweight sneakers")) p)
     = Ret (Some [py "running shoes"; py "best trail shoes";
                  py "lightweight sneakers"]).
Proof.
  split.
  - exists (split comma reply), (List.map strip (split comma reply)).
    split; [apply split_not_nil|]. split; [apply join_split|].
    split; [apply split_free|]. split.
    { induction (split comma reply) as [|seg segs IH]; simpl; constructor.
      - apply strip_spec.
      - exact IH. }
    split; intros H.
    + now rewrite (keywords_on_text P reply p H).
    + now rewrite (keywords_at_listing P reply p H).
  - rewrite keywords_on_text; [reflexivity|].
    apply accepts_ascii. reflexivity.
Qed.

(** ** C6: the file name *)

Lemma save_opens P p blog stem name :
  safe_filename P (title p) = Ret stem ->
  In (Opened name) (events (save_as_markdown P p blog)) ->
  name = stem ++ py ".md".
Proof.
  intros E Hin. pose proof (save_cases P p blog) as H. rewrite E in H.
  cbn zeta in H.
  destruct (open_error P (stem ++ py ".md"));
    [destruct (stdout_accepts P _)
    |destruct (existsb is_surrogate (full_content P p blog));
     [|destruct (stdout_accepts P _)]];
    rewrite H in Hin; unfold events, publisher_banner, saved in Hin; simpl in Hin;
    repeat (destruct Hin as [Hin|Hin]; try discriminate Hin; try contradiction);
    congruence.
Qed.

(** C6. For a title that is a string, the Publisher's file name is the
    title's characters that are alphanumeric, space, underscore or hyphen,
    in order, without the trailing whitespace of what is kept, followed by
    [.md]: this is the only name the Publisher opens, and it opens it when
    the machine lets it.  The title of the example gives
    [Acme Trail Shoe X1.md]. *)
Theorem filename_from_title P p blog t :
  title p = VStr t ->
  (exists stem,
      safe_filename P (title p) = Ret stem
      /\ trimmed_right (List.filter (allowed P) t) stem
      /\ (forall name,
            In (Opened name) (events (save_as_markdown P p blog)) ->
            name = stem ++ py ".md")
      /\ (open_error P (stem ++ py ".md") = None ->
          In (Opened (stem ++ py ".md")) (events (save_as_markdown P p blog))))
  /\ (t = py "Acme Trail Shoe: X1!" ->
      safe_filename P (title p) = Ret (py "Acme Trail Shoe X1")).
Proof.
  intros Ht. split.
  - exists (rstrip (List.filter (allowed P) t)).
    assert (E : safe_filename P (title p) = Ret (rstrip (List.filter (allowed P) t))).
    { rewrite Ht. apply safe_filename_str. }
    split; [exact E|]. split; [apply rstrip_spec|]. split.
    + intros name. now apply save_opens.
    + intros Hopen. pose proof (save_cases P p blog) as H. rewrite E in H.
      cbn zeta in H. rewrite Hopen in H.
      destruct (existsb is_surrogate (full_content P p blog));
        [|destruct (stdout_accepts P _)]; rewrite H;
        unfold events; simpl; auto.
  - intros ->. rewrite Ht. reflexivity.
Qed.

Lemma filename_from_title_witness :
  title acme = VStr (py "Acme Trail Shoe: X1!")
  /\ safe_filename plain_platform (title acme) = Ret (py "Acme Trail Shoe X1")
  /\ In (Opened (py "Acme Trail Shoe X1.md"))
        (events (save_as_markdown plain_platform acme (py "Meet the Acme Trail Shoe X1."))).
Proof.
  assert (Ht : title acme = VStr (py "Acme Trail Shoe: X1!")) by reflexivity.
  destruct (filename_from_title plain_platform acme
              (py "Meet the Acme Trail Shoe X1.") _ Ht)
    as [(stem & Hstem & _ & _ & Hopen) Hexample].
  specialize (Hexample eq_refl).
  split; [exact Ht|]. split; [exact Hexample|].
  rewrite Hexample in Hstem. injection Hstem as <-.
  apply Hopen. reflexivity.
Defined.

(** ** C7: the content of the file *)

Lemma save_writes P p blog name content :
  In (Wrote name content) (events (save_as_markdown P p blog)) ->
  content = full_content P p blog.
Proof.
  intros Hin. pose proof (save_cases P p blog) as H.
  destruct (safe_filename P (title p)) as [stem|e]; cbn zeta in H.
  - destruct (open_error P (stem ++ py ".md"));
      [destruct (stdout_accepts P _)
      |destruct (existsb is_surrogate (full_content P p blog));
       [|destruct (stdout_accepts P _)]];
      rewrite H in Hin; unfold events, publisher_banner, saved in Hin;
      simpl in Hin;
      repeat (destruct Hin as [Hin|Hin]; try discriminate Hin; try contradiction);
      congruence.
  - rewrite H in Hin. unfold events, publisher_banner in Hin. simpl in Hin.
    repeat (destruct Hin as [Hin|Hin]; try discriminate Hin; try contradiction).
Qed.

(** C7. For a product whose title and link are strings, whatever the
    Publisher writes is the article, a blank line, the rule [---], a blank
    line, and the line [**Find it here:** [title](link)] with the title as
    the Finder gave it; and when the file can be opened and the text can be
    encoded, the Publisher writes exactly that to its file and returns. *)
Theorem published_content P p blog t l :
  title p = VStr t -> link p = VStr l ->
  let content :=
    blog ++ nl ++ nl ++ py "---" ++ nl ++ nl
    ++ py "**Find it here:** [" ++ t ++ py "](" ++ l ++ py ")" in
  (forall name c,
      In (Wrote name c) (events (save_as_markdown P p blog)) -> c = content)
  /\ (forall stem,
        safe_filename P (title p) = Ret stem ->
        open_error P (stem ++ py ".md") = None ->
        existsb is_surrogate content = false ->
        result (save_as_markdown P p blog) = Ret tt
        /\ In (Wrote (stem ++ py ".md") content)
              (events (save_as_markdown P p blog))
        /\ forall fs,
             replay (events (save_as_markdown P p blog)) fs
             = <[stem ++ py ".md" := content]> fs).
Proof.
  intros Ht Hl content.
  assert (Ec : full_content P p blog = content).
  { unfold full_content, content. rewrite Ht, Hl. reflexivity. }
  split.
  - intros name c Hin. rewrite <- Ec. now apply (save_writes P p blog name).
  - intros stem Hstem Hopen Henc.
    pose proof (save_cases P p blog) as H. rewrite Hstem in H. cbn zeta in H.
    rewrite Hopen, Ec, Henc in H.
    destruct (stdout_accepts P (stem ++ py ".md")); rewrite H;
      (split; [reflexivity|]); (split; [unfold events; simpl; auto|]);
      intros fs; unfold events; cbn [snd];
      rewrite <- replay_file_ops; apply replay_open_write.
Qed.

Lemma published_content_witness :
  title acme = VStr (py "Acme Trail Shoe: X1!")
  /\ link acme = VStr (py "https://example.com/x1")
  /\ forall fs : gmap (list N) (list N),
       replay (events (save_as_markdown plain_platform acme (py "Meet."))) fs
       = <[py "Acme Trail Shoe X1.md" :=
             py "Meet." ++ nl ++ nl ++ py "---" ++ nl ++ nl
             ++ py "**Find it here:** [Acme Trail Shoe: X1!](https://example.com/x1)"]> fs.
Proof.
  assert (Ht : title acme = VStr (py "Acme Trail Shoe: X1!")) by reflexivity.
  assert (Hl : link acme = VStr (py "https://example.com/x1")) by reflexivity.
  split; [exact Ht|]. split; [exact Hl|].
  destruct (published_content plain_platform acme (py "Meet.") _ _ Ht Hl)
    as [_ Hw].
  destruct (Hw (py "Acme Trail Shoe X1") eq_refl eq_refl eq_refl)
    as (_ & _ & Hfs).
  exact Hfs.
Defined.

(** ** C8: the Article Writer *)

Lemma occurs_in_join sep kws kw : In kw kws -> occurs_in kw (join sep kws).
Proof.
  induction kws as [|k ks IH]; [intros []|].
  intros [->|Hin].
  - destruct ks as [|k' ks'].
    + exists [], []. simpl. now rewrite app_nil_r.
    + exists [], (sep ++ join sep (k' :: ks')). reflexivity.
  - destruct (IH Hin) as (pre & post & E).
    destruct ks as [|k' ks']; [destruct Hin|].
    exists (k ++ sep ++ pre), post.
    change (join sep (k :: k' :: ks')) with (k ++ sep ++ join sep (k' :: ks')).
    rewrite E. now rewrite <- !app_assoc.
Qed.

Lemma occurs_in_trans a b c : occurs_in a b -> occurs_in b c -> occurs_in a c.
Proof.
  intros (p1 & q1 & ->) (p2 & q2 & ->).
  exists (p2 ++ p1), (q1 ++ q2). now rewrite <- !app_assoc.
Qed.

Lemma occurs_in_head (a c : text) : occurs_in a (a ++ c).
Proof. now exists [], c. Qed.

Lemma occurs_in_tail (a b c : text) : occurs_in a c -> occurs_in a (b ++ c).
Proof. intros (pre & post & ->). exists (b ++ pre), post. now rewrite <- app_assoc. Qed.

Lemma join_in_blog_prompt P p kws :
  occurs_in (join (py ", ") kws) (blog_prompt P p kws).
Proof.
  unfold blog_prompt. do 8 apply occurs_in_tail. apply occurs_in_head.
Qed.

(** C8 as stated fails on a reply of whitespace only: the call succeeds
    and the Article Writer returns the empty text. *)
Lemma blank_article_is_returned :
  result (create_blog_post plain_platform (GenText (py "   ")) acme
            [py "trail shoes"; py "lightweight running shoes"])
  = Ret (Some []).
Proof. vm_compute. reflexivity. Qed.

(** C8, amended.  The one prompt the Article Writer sends holds the
    keywords joined by [", "], hence every keyword, verbatim; and on a
    successful call the Article Writer returns the reply without the
    whitespace at both ends, which is empty exactly when the reply is
    whitespace only. *)
Theorem article_prompt_and_text P p kws api :
  In (Generated (blog_prompt P p kws)) (events (create_blog_post P api p kws))
  /\ (forall prompt,
        In (Generated prompt) (events (create_blog_post P api p kws)) ->
        prompt = blog_prompt P p kws)
  /\ occurs_in (join (py ", ") kws) (blog_prompt P p kws)
  /\ (forall kw, In kw kws -> occurs_in kw (blog_prompt P p kws))
  /\ (forall reply,
        api = GenText reply ->
        result (create_blog_post P api p kws) = Ret (Some (strip reply))
        /\ trimmed reply (strip reply)
        /\ (strip reply = [] <-> blank reply)).
Proof.
  assert (Hev : exists o tail,
             create_blog_post P api p kws = (o, article_banner P p kws ++ tail)
             /\ forall prompt, ~ In (Generated prompt) tail).
  { destruct api as [e|reply].
    - destruct (stdout_accepts P (exn_msg e)) eqn:Hm.
      + rewrite (article_on_error P e p kws Hm). do 2 eexists.
        split; [reflexivity|]. intros prompt [H|[]]. discriminate H.
      + rewrite (article_in_handler P e p kws Hm). eexists. exists [].
        split; [now rewrite app_nil_r|]. intros prompt [].
    - rewrite article_on_text. do 2 eexists.
      split; [reflexivity|]. intros prompt [H|[]]. discriminate H. }
  destruct Hev as (o & tail & Hev & Htail).
  split; [|split; [|split; [|split]]].
  - rewrite Hev. unfold events. simpl. auto.
  - intros prompt Hin. rewrite Hev in Hin. unfold events in Hin. simpl in Hin.
    destruct Hin as [Hin|[Hin|[Hin|Hin]]]; try discriminate Hin.
    + congruence.
    + now destruct (Htail prompt).
  - apply join_in_blog_prompt.
  - intros kw Hin. eapply occurs_in_trans; [apply occurs_in_join, Hin|].
    apply join_in_blog_prompt.
  - intros reply ->. rewrite article_on_text. split; [reflexivity|].
    split; [apply strip_spec|apply strip_nil_iff].
Qed.

Lemma article_prompt_and_text_witness :
  occurs_in (py "lightweight running shoes")
    (blog_prompt plain_platform acme
       [py "trail shoes"; py "lightweight running shoes"])
  /\ result (create_blog_post plain_platform (GenText (py "  Meet the X1.  "))
               acme [py "trail shoes"; py "lightweight running shoes"])
     = Ret (Some (strip (py "  Meet the X1.  "))).
Proof.
  destruct (article_prompt_and_text plain_platform acme
              [py "trail shoes"; py "lightweight running shoes"]
              (GenText (py "  Meet the X1.  ")))
    as (_ & _ & _ & Hkw & Htext).
  split.
  - apply Hkw. right. left. reflexivity.
  - destruct (Htext _ eq_refl) as [Hr _]. exact Hr.
Defined.

(** ** C9: running twice *)

(** A run opens at most one file and writes it at most once. *)
Lemma main_file_ops P r query :
  file_ops (events (main P r query)) = []
  \/ exists name,
       file_ops (events (main P r query)) = [Opened name]
       \/ exists content,
            file_ops (events (main P r query)) = [Opened name; Wrote name content].
Proof.
  destruct (main_shape P r query) as
    [e l1 E1|l1 E1|p l1 e l2 E1 E2|p l1 kws l2 E1 E2 Hk
    |p l1 k ks l2 e l3 E1 E2 E3|p l1 k ks l2 blog l3 E1 E2 E3 Hb
    |p l1 k ks l2 c cs l3 o l4 E1 E2 E3 E4];
    pose proof (finder_log _ _ _ _ _ E1) as O1;
    try pose proof (keywords_log _ _ _ _ _ E2) as O2;
    try pose proof (article_log _ _ _ _ _ _ E3) as O3;
    unfold events; cbn [snd]; rewrite ?file_ops_app;
    rewrite (own_file_ops _ _ O1) by discriminate;
    try rewrite (own_file_ops _ _ O2) by discriminate;
    try rewrite (own_file_ops _ _ O3) by discriminate;
    try (left; reflexivity).
  pose proof (save_file_ops P p (c :: cs)) as H. rewrite E4 in H.
  exact H.
Qed.

Lemma replay_open name fs : replay [Opened name] fs = <[name := []]> fs.
Proof. reflexivity. Qed.

(** C9. With the same query and the same responses, the file system after
    two runs is the file system after one run: the second run makes the
    same calls and file operations as the first (a run does not read what
    an earlier one left, and the machine answers [open] as before), and it
    opens and writes the same file again.
    What a run writes is what the file holds after one run and after two. *)
Theorem rerun_overwrites P r query fs :
  run P r query (run P r query fs) = run P r query fs
  /\ (forall name content,
        In (Wrote name content) (events (main P r query)) ->
        run P r query fs !! name = Some content
        /\ run P r query (run P r query fs) !! name = Some content).
Proof.
  unfold run.
  assert (Hin : forall name content,
             In (Wrote name content) (events (main P r query)) ->
             In (Wrote name content) (file_ops (events (main P r query)))).
  { intros name content H. unfold file_ops. apply List.filter_In. now split. }
  rewrite <- !(replay_file_ops (events (main P r query))).
  destruct (main_file_ops P r query) as [E|[name [E|[content E]]]];
    rewrite E in *.
  - split; [reflexivity|]. intros n c H. destruct (Hin n c H).
  - split.
    + rewrite !replay_open. apply insert_insert_eq.
    + intros n c H. destruct (Hin n c H) as [H'|[]]. discriminate H'.
  - split.
    + rewrite !replay_open_write. apply insert_insert_eq.
    + intros n c H. destruct (Hin n c H) as [H'|[H'|[]]]; [discriminate H'|].
      injection H' as <- <-. rewrite !replay_open_write.
      rewrite insert_insert_eq. split; apply lookup_insert_eq.
Qed.

Lemma rerun_overwrites_witness :
  run plain_platform acme_responses shoes
    (run plain_platform acme_responses shoes ∅)
  = run plain_platform acme_responses shoes ∅
  /\ run plain_platform acme_responses shoes ∅ !! py "Acme Trail Shoe X1.md"
     = Some (full_content plain_platform acme (py "Meet the Acme Trail Shoe X1.")).
Proof.
  destruct (rerun_overwrites plain_platform acme_responses shoes ∅) as [H1 H2].
  split; [exact H1|].
  apply (H2 (py "Acme Trail Shoe X1.md")).
  vm_compute. repeat (first [left; reflexivity | right]).
Defined.

(** ** C10: a successful keyword call and the run *)

Lemma article_starts P api p kws :
  exists o tail,
    create_blog_post P api p kws = (o, article_banner P p kws ++ tail).
Proof.
  destruct api as [e|reply].
  - destruct (stdout_accepts P (exn_msg e)) eqn:Hm.
    + rewrite (article_on_error P e p kws Hm). eauto.
    + rewrite (article_in_handler P e p kws Hm). eexists. exists [].
      now rewrite app_nil_r.
  - rewrite article_on_text. eauto.
Qed.

(** C10 as stated fails on a reply that standard output cannot encode: the
    generation call succeeds, the Keyword Generator returns [None], and the
    Article Writer is not entered. *)
Lemma unprintable_keywords_stop_the_run :
  keywords_reply unprintable_responses = GenText unprintable_reply
  /\ result (get_seo_keywords plain_platform
               (keywords_reply unprintable_responses) acme) = Ret None
  /\ ~ invoked ArticleWriter
        (events (main plain_platform unprintable_responses shoes)).
Proof.
  split; [reflexivity|]. split; [vm_compute; reflexivity|].
  unfold invoked. vm_compute. intros H.
  repeat (destruct H as [H|H]; [discriminate H|]). exact H.
Qed.

(** C10, amended.  When the Finder has returned a product and the
    generation call of the Keyword Generator succeeds, the keywords (the
    trimmed segments of the reply) are never an empty list, and when
    standard output can encode the line that lists them the Keyword
    Generator returns them, not [None]; [main] then goes on, and the
    Article Writer is entered and sends the prompt built from that list.
    On the empty reply the list is the one-element list of the empty
    string, which every standard output can print. *)
Theorem keywords_success_reaches_writer P r query p reply :
  result (find_trending_product P (search r) query) = Ret (Some p) ->
  keywords_reply r = GenText reply ->
  let kws := List.map strip (split comma reply) in
  kws <> []
  /\ (reply = [] -> kws = [[]])
  /\ (reply = [] -> stdout_accepts P (join (py ", ") kws) = true)
  /\ (stdout_accepts P (join (py ", ") kws) = true ->
      result (get_seo_keywords P (keywords_reply r) p) = Ret (Some kws)
      /\ invoked ArticleWriter (events (main P r query))
      /\ In (Generated (blog_prompt P p kws)) (events (main P r query))).
Proof.
  intros Hfind Hreply kws. subst kws.
  split.
  { pose proof (split_not_nil comma reply). now destruct (split comma reply). }
  split; [now intros ->|]. split; [now intros ->|].
  intros Hacc. rewrite Hreply, (keywords_on_text P reply p Hacc).
  split; [reflexivity|].
  destruct (find_trending_product P (search r) query) as [o l1] eqn:E1.
  unfold result in Hfind. simpl in Hfind. subst o.
  unfold main. rewrite E1. cbn [bind]. rewrite Hreply, (keywords_on_text P reply p Hacc).
  cbn [bind].
  pose proof (split_not_nil comma reply) as Hnn.
  destruct (split comma reply) as [|seg segs]; [contradiction|].
  cbn [List.map].
  destruct (article_starts P (article_reply r) p (strip seg :: List.map strip segs))
    as (o & tail & ->).
  assert (Hb1 : In (Entered ArticleWriter)
                   (article_banner P p (strip seg :: List.map strip segs)))
    by (simpl; auto).
  assert (Hb2 : In (Generated (blog_prompt P p (strip seg :: List.map strip segs)))
                   (article_banner P p (strip seg :: List.map strip segs)))
    by (simpl; auto).
  unfold invoked, events.
  destruct o as [[[|c cs]|]|e]; cbn [bind ret];
    try destruct (save_as_markdown P p (c :: cs)) as [o4 l4]; cbn [snd];
    rewrite !in_app_iff; tauto.
Qed.

Lemma keywords_success_reaches_writer_witness :
  result (get_seo_keywords plain_platform (GenText []) acme) = Ret (Some [[]])
  /\ invoked ArticleWriter
       (events (main plain_platform
                  {| search := search acme_responses;
                     keywords_reply := GenText [];
                     article_reply := article_reply acme_responses |} shoes))
  /\ In (Generated (blog_prompt plain_platform acme [[]]))
       (events (main plain_platform
                  {| search := search acme_responses;
                     keywords_reply := GenText [];
                     article_reply := article_reply acme_responses |} shoes)).
Proof.
  destruct (keywords_success_reaches_writer plain_platform
              {| search := search acme_responses;
                 keywords_reply := GenText [];
                 article_reply := article_reply acme_responses |}
              shoes acme [] eq_refl eq_refl)
    as (_ & _ & Hacc & Hrun).
  destruct (Hrun (Hacc eq_refl)) as (Hk & Hinv & Hgen).
  split; [exact Hk|]. split; [exact Hinv|exact Hgen].
Defined.

(** * Beyond the claims *)

(** ** The Finder, on every response *)

Lemma error_line_no_product : error_line no_product.
Proof. exists (py "No trending products found for this query."). reflexivity. Qed.

Lemma error_line_fetch_failed msg : error_line (fetch_failed msg).
Proof.
  exists (py "Failed to fetch data from SerpApi: " ++ msg).
  reflexivity.
Qed.

(** X1. Only the first entry of the results list counts: two parsed bodies
    whose lists start with the same entry make the Finder return the same
    product (or raise the same exception) and print the same lines. *)
Theorem finder_ignores_later_entries P d d' x rest rest' query :
  dict_lookup d shopping_results = Some (VList (x :: rest)) ->
  dict_lookup d' shopping_results = Some (VList (x :: rest')) ->
  find_trending_product P (BodyJson (VDict d)) query
  = find_trending_product P (BodyJson (VDict d')) query.
Proof.
  intros H H'.
  destruct (stdout_accepts P query) eqn:Hq.
  2: { now rewrite !(find_at_banner P _ query Hq). }
  assert (Hx : (exists entry, x = VDict entry) \/ forall entry, x <> VDict entry).
  { destruct x; try (right; discriminate). left; eauto. }
  destruct Hx as [[entry ->]|Hx].
  - destruct (stdout_accepts P (found_line P (entry_info entry))) eqn:Hl.
    + now rewrite (find_on_object P d entry rest query Hq H Hl),
        (find_on_object P d' entry rest' query Hq H' Hl).
    + now rewrite (find_at_found P d entry rest query Hq H Hl),
        (find_at_found P d' entry rest' query Hq H' Hl).
  - now rewrite (find_on_non_object P d x rest query Hq H Hx),
      (find_on_non_object P d' x rest' query Hq H' Hx).
Qed.

Lemma finder_ignores_later_entries_witness :
  find_trending_product plain_platform
    (BodyJson (search_body [VDict acme_entry])) shoes
  = find_trending_product plain_platform
      (BodyJson (VDict [(py "search_metadata", VNone);
                        (shopping_results,
                         VList [VDict acme_entry; VDict untitled_entry; VInt 5])]))
      shoes.
Proof.
  apply (finder_ignores_later_entries plain_platform _ _ (VDict acme_entry)
           [] [VDict untitled_entry; VInt 5]); reflexivity.
Defined.



(** ** Failures and what is printed *)

Lemma ends_with_error_snoc l e : error_line e -> ends_with_error (l ++ [e]).
Proof. intros H. now exists l, e. Qed.

Lemma error_line_save_failed msg : error_line (save_failed msg).
Proof. exists (py "Failed to save file: " ++ msg). reflexivity. Qed.

(** X3. A step that gives up says so: when the Finder, the Keyword
    Generator or the Article Writer returns [None], the last thing it did
    was print a line that starts with [[ERROR] ]; and when the Publisher
    returns, it has written the content to the file or its last line is
    such an error line. *)
Theorem failures_are_reported P :
  (forall api query,
      result (find_trending_product P api query) = Ret None ->
      ends_with_error (events (find_trending_product P api query)))
  /\ (forall api p,
        result (get_seo_keywords P api p) = Ret None ->
        ends_with_error (events (get_seo_keywords P api p)))
  /\ (forall api p kws,
        result (create_blog_post P api p kws) = Ret None ->
        ends_with_error (events (create_blog_post P api p kws)))
  /\ (forall p blog,
        result (save_as_markdown P p blog) = Ret tt ->
        (exists name,
            In (Wrote name (full_content P p blog))
               (events (save_as_markdown P p blog)))
        \/ ends_with_error (events (save_as_markdown P p blog))).
Proof.
  split; [|split; [|split]].
  - intros api query Hr.
    destruct (find_endings P api query) as
      [Hq|e0 Hq Hf He Hm|e0 Hq Hf He Hm|e0 Hq Hf He|data Hq Ha Hn
      |d entry rest Hq Ha Hd Hl|d entry rest Hq Ha Hd Hl|data c Hq Ha Hc];
      try discriminate Hr.
    + apply ends_with_error_snoc, error_line_fetch_failed.
    + apply ends_with_error_snoc, error_line_no_product.
  - intros [e|reply] p Hr.
    + destruct (stdout_accepts P (exn_msg e)) eqn:Hm.
      * rewrite (keywords_on_error P e p Hm). apply ends_with_error_snoc.
        exists (py "Failed to generate keywords from Google Gemini: " ++ exn_msg e).
        reflexivity.
      * rewrite (keywords_in_handler P e p Hm) in Hr. discriminate Hr.
    + destruct (stdout_accepts P
                  (join (py ", ") (List.map strip (split comma reply)))) eqn:Hl.
      * rewrite (keywords_on_text P reply p Hl) in Hr. discriminate Hr.
      * rewrite (keywords_at_listing P reply p Hl). apply ends_with_error_snoc.
        eexists. reflexivity.
  - intros [e|reply] p kws Hr.
    + destruct (stdout_accepts P (exn_msg e)) eqn:Hm.
      * rewrite (article_on_error P e p kws Hm). apply ends_with_error_snoc.
        exists (py "Failed to write blog post from Google Gemini: " ++ exn_msg e).
        reflexivity.
      * rewrite (article_in_handler P e p kws Hm) in Hr. discriminate Hr.
    + rewrite article_on_text in Hr. discriminate Hr.
  - intros p blog Hr. pose proof (save_cases P p blog) as H.
    destruct (safe_filename P (title p)) as [stem|e]; cbn zeta in H.
    + destruct (open_error P (stem ++ py ".md")) as [msg|].
      * destruct (stdout_accepts P msg); rewrite H in *; [|discriminate Hr].
        right. apply ends_with_error_snoc, error_line_save_failed.
      * destruct (existsb is_surrogate (full_content P p blog));
          [|destruct (stdout_accepts P (stem ++ py ".md"))]; rewrite H.
        -- right. unfold events. cbn [snd].
           change (publisher_banner ++ [Opened (stem ++ py ".md");
                     save_failed (encode_error P (full_content P p blog))])
             with ((publisher_banner ++ [Opened (stem ++ py ".md")])
                   ++ [save_failed (encode_error P (full_content P p blog))]).
           apply ends_with_error_snoc, error_line_save_failed.
        -- left. exists (stem ++ py ".md"). unfold events. simpl. auto.
        -- left. exists (stem ++ py ".md"). unfold events. simpl. auto.
    + rewrite H in Hr. discriminate Hr.
Qed.

(** X4. An exception leaves the Keyword Generator or the Article Writer
    only from its [except] handler: when the generation call failed and
    standard output cannot encode the message of the failure.  The Article
    Writer returns [None] exactly when its call failed and the message was
    printed; the Keyword Generator returns [None] exactly then, or when the
    call succeeded and standard output cannot encode the keywords. *)
Theorem generation_steps_raise_in_handler_only P api p kws :
  (forall e',
      result (get_seo_keywords P api p) = Raise e' ->
      exists e, api = GenFails e /\ stdout_accepts P (exn_msg e) = false
                /\ e' = print_exn P (keywords_failed_line (exn_msg e)))
  /\ (forall e',
        result (create_blog_post P api p kws) = Raise e' ->
        exists e, api = GenFails e /\ stdout_accepts P (exn_msg e) = false
                  /\ e' = print_exn P (article_failed_line (exn_msg e)))
  /\ (result (create_blog_post P api p kws) = Ret None
      <-> exists e, api = GenFails e /\ stdout_accepts P (exn_msg e) = true)
  /\ (result (get_seo_keywords P api p) = Ret None
      <-> (exists e, api = GenFails e /\ stdout_accepts P (exn_msg e) = true)
          \/ (exists reply,
                 api = GenText reply
                 /\ stdout_accepts P
                      (join (py ", ") (List.map strip (split comma reply)))
                    = false)).
Proof.
  destruct api as [e|reply].
  - destruct (stdout_accepts P (exn_msg e)) eqn:Hm.
    + rewrite (keywords_on_error P e p Hm), (article_on_error P e p kws Hm).
      unfold result. cbn [fst].
      split; [discriminate|]. split; [discriminate|].
      split; split; eauto.
    + rewrite (keywords_in_handler P e p Hm), (article_in_handler P e p kws Hm).
      unfold result. cbn [fst].
      split; [intros e' [= <-]; eauto|]. split; [intros e' [= <-]; eauto|].
      split; split; try discriminate.
      * intros (e0 & [= <-] & H). congruence.
      * intros [(e0 & [= <-] & H)|(reply & H & _)]; [congruence|discriminate H].
  - rewrite article_on_text. unfold result at 2 3. cbn [fst].
    destruct (stdout_accepts P
                (join (py ", ") (List.map strip (split comma reply)))) eqn:Hl.
    + rewrite (keywords_on_text P reply p Hl). unfold result. cbn [fst].
      split; [discriminate|]. split; [discriminate|].
      split; split; try discriminate.
      * intros (e & H & _). discriminate H.
      * intros [(e & H & _)|(reply' & [= <-] & H)]; [discriminate H|congruence].
    + rewrite (keywords_at_listing P reply p Hl). unfold result. cbn [fst].
      split; [discriminate|]. split; [discriminate|].
      split; split; try discriminate; eauto.
      intros (e & H & _). discriminate H.
Qed.

(** ** The keyword list *)

Lemma split_length sep s :
  length (split sep s) = S (count_occ N.eq_dec s sep).
Proof.
  induction s as [|c t IH]; [reflexivity|]. simpl.
  destruct (N.eqb_spec c sep) as [->|Hne].
  - destruct (N.eq_dec sep sep); [|contradiction]. simpl. now rewrite IH.
  - destruct (N.eq_dec c sep); [contradiction|].
    destruct (split sep t); simpl in *; [discriminate|exact IH].
Qed.

Lemma rstrip_tight t :
  (forall pre c, t = pre ++ [c] -> isspace c = false) -> rstrip t = t.
Proof.
  induction t as [|c t IH]; intros H; [reflexivity|]. simpl.
  destruct t as [|x t'].
  - simpl. now rewrite (H [] c eq_refl).
  - rewrite IH.
    + reflexivity.
    + intros pre c' E. apply (H (c :: pre)). simpl. now rewrite E.
Qed.

Lemma lstrip_tight t :
  (forall c rest, t = c :: rest -> isspace c = false) -> lstrip t = t.
Proof.
  destruct t as [|c t]; intros H; [reflexivity|].
  simpl. now rewrite (H c t eq_refl).
Qed.

Lemma strip_tight t : tight t -> strip t = t.
Proof.
  intros [Hh Hl]. unfold strip. rewrite (rstrip_tight t Hl).
  now apply lstrip_tight.
Qed.

Lemma tight_strip s : tight (strip s).
Proof. destruct (strip_spec s) as (l & r & _ & _ & _ & Hh & Hl). now split. Qed.

Lemma in_strip c s : In c (strip s) -> In c s.
Proof.
  destruct (strip_spec s) as (l & r & E & _). intros H. rewrite E.
  rewrite !in_app_iff. tauto.
Qed.

(** X5. Whenever the Keyword Generator returns keywords, the generation
    call gave a reply and there is exactly one keyword more than the reply
    has commas; no keyword holds a comma or has whitespace at either end
    (trimming it again changes nothing). *)
Theorem keywords_count_and_shape P p api kws :
  result (get_seo_keywords P api p) = Ret (Some kws) ->
  exists reply,
    api = GenText reply
    /\ length kws = S (count_occ N.eq_dec reply comma)
    /\ Forall (fun k => ~ In comma k /\ tight k /\ strip k = k) kws.
Proof.
  intros Hr. destruct api as [e|reply].
  { destruct (stdout_accepts P (exn_msg e)) eqn:Hm.
    - rewrite (keywords_on_error P e p Hm) in Hr. discriminate Hr.
    - rewrite (keywords_in_handler P e p Hm) in Hr. discriminate Hr. }
  exists reply. split; [reflexivity|].
  destruct (stdout_accepts P
              (join (py ", ") (List.map strip (split comma reply)))) eqn:Hl.
  2: { rewrite (keywords_at_listing P reply p Hl) in Hr. discriminate Hr. }
  rewrite (keywords_on_text P reply p Hl) in Hr. injection Hr as <-.
  clear Hl. split.
  - rewrite length_map. apply split_length.
  - pose proof (split_free comma reply) as Hfree.
    induction Hfree as [|seg segs Hseg _ IH]; simpl; constructor; [|exact IH].
    split; [|split].
    + intros Hin. apply Hseg. now apply in_strip.
    + apply tight_strip.
    + apply strip_tight, tight_strip.
Qed.

Lemma keywords_count_and_shape_witness :
  result (get_seo_keywords plain_platform
            (GenText (py "trail shoes, lightweight running shoes")) acme)
  = Ret (Some [py "trail shoes"; py "lightweight running shoes"])
  /\ length [py "trail shoes"; py "lightweight running shoes"]
     = S (count_occ N.eq_dec (py "trail shoes, lightweight running shoes") comma).
Proof.
  assert (H : result (get_seo_keywords plain_platform
                        (GenText (py "trail shoes, lightweight running shoes")) acme)
              = Ret (Some [py "trail shoes"; py "lightweight running shoes"])).
  { vm_compute. reflexivity. }
  split; [exact H|].
  destruct (keywords_count_and_shape _ _ _ _ H) as (reply & E & Hlen & _).
  injection E as <-. exact Hlen.
Defined.

(** ** The prompts *)

(** X6. Both prompts hold the product's title, price and source as the
    f-string formats them, and nothing of its link: two products that
    differ only in their link get the same two prompts. *)
Theorem prompts_carry_product_not_link P p p' kws :
  occurs_in (py_str P (title p)) (keyword_prompt P p)
  /\ occurs_in (py_str P (price p)) (keyword_prompt P p)
  /\ occurs_in (py_str P (source p)) (keyword_prompt P p)
  /\ occurs_in (py_str P (title p)) (blog_prompt P p kws)
  /\ occurs_in (py_str P (price p)) (blog_prompt P p kws)
  /\ occurs_in (py_str P (source p)) (blog_prompt P p kws)
  /\ (title p = title p' -> price p = price p' -> source p = source p' ->
      keyword_prompt P p = keyword_prompt P p'
      /\ blog_prompt P p kws = blog_prompt P p' kws).
Proof.
  unfold keyword_prompt, blog_prompt.
  split; [|split; [|split; [|split; [|split; [|split]]]]].
  - do 9 apply occurs_in_tail. apply occurs_in_head.
  - do 12 apply occurs_in_tail. apply occurs_in_head.
  - do 15 apply occurs_in_tail. apply occurs_in_head.
  - do 15 apply occurs_in_tail. apply occurs_in_head.
  - do 18 apply occurs_in_tail. apply occurs_in_head.
  - do 21 apply occurs_in_tail. apply occurs_in_head.
  - intros Ht Hp Hs. now rewrite Ht, Hp, Hs.
Qed.

(** ** Steps and requests of a run *)

Lemma entered_app l1 l2 : entered (l1 ++ l2) = entered l1 ++ entered l2.
Proof.
  induction l1 as [|e l1 IH]; [reflexivity|].
  destruct e; simpl; now rewrite IH.
Qed.

Lemma requests_app l1 l2 : requests (l1 ++ l2) = requests l1 ++ requests l2.
Proof. apply List.filter_app. Qed.

(** Each step is entered once; the Finder sends its request unless its
    first line cannot be printed, the two generation steps always send
    theirs. *)
Lemma finder_trace P api q o l :
  find_trending_product P api q = (o, l) ->
  entered l = [Finder]
  /\ requests l = if stdout_accepts P q then [HttpGet q] else [].
Proof.
  intros E0.
  destruct (find_endings P api q) as
    [Hq|e0 Hq Hf He Hm|e0 Hq Hf He Hm|e0 Hq Hf He|data Hq Ha Hn
    |d entry rest Hq Ha Hd Hl|d entry rest Hq Ha Hd Hl|data c Hq Ha Hc];
    injection E0 as <- <-; rewrite Hq; split; reflexivity.
Qed.

Lemma keywords_trace P api p o l :
  get_seo_keywords P api p = (o, l) ->
  entered l = [KeywordGenerator] /\ requests l = [Generated (keyword_prompt P p)].
Proof.
  destruct api as [e|reply].
  - destruct (stdout_accepts P (exn_msg e)) eqn:Hm;
      [rewrite (keywords_on_error P e p Hm)|rewrite (keywords_in_handler P e p Hm)];
      intros [= <- <-]; split; reflexivity.
  - destruct (stdout_accepts P
                (join (py ", ") (List.map strip (split comma reply)))) eqn:Hl;
      [rewrite (keywords_on_text P reply p Hl)
      |rewrite (keywords_at_listing P reply p Hl)];
      intros [= <- <-]; split; reflexivity.
Qed.

Lemma article_trace P api p kws o l :
  create_blog_post P api p kws = (o, l) ->
  entered l = [ArticleWriter] /\ requests l = [Generated (blog_prompt P p kws)].
Proof.
  destruct api as [e|reply].
  - destruct (stdout_accepts P (exn_msg e)) eqn:Hm;
      [rewrite (article_on_error P e p kws Hm)
      |rewrite (article_in_handler P e p kws Hm)];
      intros [= <- <-]; split; reflexivity.
  - rewrite article_on_text. intros [= <- <-]; split; reflexivity.
Qed.

Lemma publisher_trace P p blog o l :
  save_as_markdown P p blog = (o, l) ->
  entered l = [Publisher] /\ requests l = [].
Proof.
  intros E0. pose proof (save_cases P p blog) as H.
  destruct (safe_filename P (title p)) as [stem|e]; cbn zeta in H.
  - destruct (open_error P (stem ++ py ".md"));
      [destruct (stdout_accepts P _)
      |destruct (existsb is_surrogate (full_content P p blog));
       [|destruct (stdout_accepts P _)]];
      rewrite H in E0; injection E0 as <- <-; split; reflexivity.
  - rewrite H in E0. injection E0 as <- <-. split; reflexivity.
Qed.

Ltac trace_run :=
  repeat match goal with
  | E : find_trending_product _ _ _ = (_, _) |- _ =>
      apply finder_trace in E; destruct E as [? ?]
  | E : get_seo_keywords _ _ _ = (_, _) |- _ =>
      apply keywords_trace in E; destruct E as [? ?]
  | E : create_blog_post _ _ _ _ = (_, _) |- _ =>
      apply article_trace in E; destruct E as [? ?]
  | E : save_as_markdown _ _ _ = (_, _) |- _ =>
      apply publisher_trace in E; destruct E as [? ?]
  end.

(** X7. The steps run in their order, each at most once, and a run stops
    between steps only: the steps a run enters are the Finder, or the
    Finder and the Keyword Generator, or these and the Article Writer, or
    all four. *)
Theorem steps_run_in_order P r query :
  entered (events (main P r query)) = [Finder]
  \/ entered (events (main P r query)) = [Finder; KeywordGenerator]
  \/ entered (events (main P r query)) = [Finder; KeywordGenerator; ArticleWriter]
  \/ entered (events (main P r query)) = pipeline_order.
Proof.
  destruct (main_shape P r query) as
    [e l1 E1|l1 E1|p l1 e l2 E1 E2|p l1 kws l2 E1 E2 Hk
    |p l1 k ks l2 e l3 E1 E2 E3|p l1 k ks l2 blog l3 E1 E2 E3 Hb
    |p l1 k ks l2 c cs l3 o l4 E1 E2 E3 E4];
    trace_run; unfold events; cbn [snd]; rewrite ?entered_app;
    repeat match goal with H : entered _ = _ |- _ => rewrite H; clear H end;
    simpl; tauto.
Qed.

(** X8. A run sends at most one search request, with the query it was
    given, and retries nothing.  When standard output cannot encode the
    query the run sends no request at all; otherwise its requests are the
    search request alone, or that one and the keyword prompt for the
    product found, or these two and the article prompt for that product
    and the keywords returned. *)
Theorem requests_of_a_run P r query :
  (stdout_accepts P query = false
   /\ requests (events (main P r query)) = [])
  \/ (stdout_accepts P query = true
      /\ (requests (events (main P r query)) = [HttpGet query]
          \/ exists p,
               result (find_trending_product P (search r) query) = Ret (Some p)
               /\ (requests (events (main P r query))
                   = [HttpGet query; Generated (keyword_prompt P p)]
                   \/ exists kws,
                        result (get_seo_keywords P (keywords_reply r) p)
                        = Ret (Some kws)
                        /\ requests (events (main P r query))
                           = [HttpGet query; Generated (keyword_prompt P p);
                              Generated (blog_prompt P p kws)]))).
Proof.
  destruct (stdout_accepts P query) eqn:Hq.
  - right. split; [reflexivity|].
    destruct (main_shape P r query) as
      [e l1 E1|l1 E1|p l1 e l2 E1 E2|p l1 kws l2 E1 E2 Hk
      |p l1 k ks l2 e l3 E1 E2 E3|p l1 k ks l2 blog l3 E1 E2 E3 Hb
      |p l1 k ks l2 c cs l3 o l4 E1 E2 E3 E4];
      try (assert (R1 : result (find_trending_product P (search r) query)
                        = Ret (Some p)) by now rewrite E1);
      try (assert (R2 : result (get_seo_keywords P (keywords_reply r) p)
                        = Ret (Some (k :: ks))) by now rewrite E2);
      trace_run; unfold events; cbn [snd]; rewrite ?requests_app;
      repeat match goal with H : requests _ = _ |- _ => rewrite H; clear H end;
      rewrite Hq; simpl.
    1, 2: now left.
    1, 2: right; exists p; split; [exact R1|now left].
    all: right; exists p; split; [exact R1|right; exists (k :: ks); split;
         [exact R2|reflexivity]].
  - left. split; [reflexivity|].
    unfold main. rewrite (find_at_banner P (search r) query Hq). reflexivity.
Qed.

(** ** The Publisher: its file name *)

Lemma filter_all {A} (f : A -> bool) l :
  Forall (fun x => f x = true) l -> List.filter f l = l.
Proof.
  induction 1 as [|x l Hx _ IH]; [reflexivity|]. simpl. now rewrite Hx, IH.
Qed.

Lemma stem_allowed P t :
  Forall (fun c => allowed P c = true) (rstrip (List.filter (allowed P) t)).
Proof.
  destruct (rstrip_spec (List.filter (allowed P) t)) as (r & E & _).
  apply List.Forall_forall. intros c Hin.
  assert (Hf : In c (List.filter (allowed P) t)).
  { rewrite E. apply in_or_app. now left. }
  apply List.filter_In in Hf. tauto.
Qed.

(** X9. For a title that is a string, every character of the file name
    before [.md] is one the filter keeps; an ASCII character of it is a
    letter, a digit, a space, an underscore or a hyphen, so the name holds
    no slash, backslash, dot or colon and stays in the working directory.
    Cleaning the cleaned name again changes nothing. *)
Theorem filename_is_safe P t :
  exists stem,
    safe_filename P (VStr t) = Ret stem
    /\ Forall (fun c => allowed P c = true) stem
    /\ (forall c, In c stem -> (c < 128)%N ->
          ascii_isalnum c = true \/ c = 32%N \/ c = 95%N \/ c = 45%N)
    /\ (forall c, In c [47; 92; 46; 58; 0]%N -> ~ In c stem)
    /\ safe_filename P (VStr stem) = Ret stem.
Proof.
  exists (rstrip (List.filter (allowed P) t)).
  pose proof (stem_allowed P t) as Hall.
  assert (Hascii : forall c,
             In c (rstrip (List.filter (allowed P) t)) -> (c < 128)%N ->
             ascii_isalnum c = true \/ c = 32%N \/ c = 95%N \/ c = 45%N).
  { intros c Hin Hlt. rewrite List.Forall_forall in Hall. specialize (Hall c Hin).
    unfold allowed, isalnum in Hall.
    apply N.ltb_lt in Hlt. rewrite Hlt in Hall.
    destruct (ascii_isalnum c); [now left|]. right.
    repeat (apply orb_prop in Hall as [Hall|Hall]);
      try discriminate Hall; apply N.eqb_eq in Hall; auto. }
  split; [apply safe_filename_str|]. split; [exact Hall|].
  split; [exact Hascii|]. split.
  - intros c Hc Hin.
    assert (Hlt : (c < 128)%N).
    { simpl in Hc. repeat (destruct Hc as [<-|Hc]; [reflexivity|]). destruct Hc. }
    specialize (Hascii c Hin Hlt). simpl in Hc.
    repeat (destruct Hc as [<-|Hc];
            [destruct Hascii as [H|[H|[H|H]]]; discriminate H|]).
    destruct Hc.
  - rewrite safe_filename_str. f_equal.
    rewrite (filter_all _ _ Hall).
    apply rstrip_tight.
    destruct (rstrip_spec (List.filter (allowed P) t)) as (r & _ & _ & Hl).
    exact Hl.
Qed.

(** ** The Publisher: exceptions and failures *)

Lemma save_raises P p blog e :
  result (save_as_markdown P p blog) = Raise e
  <-> safe_filename P (title p) = Raise e
      \/ exists stem msg,
           safe_filename P (title p) = Ret stem
           /\ open_error P (stem ++ py ".md") = Some msg
           /\ stdout_accepts P msg = false
           /\ e = print_exn P (save_failed_line msg).
Proof.
  pose proof (save_cases P p blog) as H.
  destruct (safe_filename P (title p)) as [stem|e']; cbn zeta in H.
  - destruct (open_error P (stem ++ py ".md")) as [msg|] eqn:Eo;
      [destruct (stdout_accepts P msg) eqn:Hm
      |destruct (existsb is_surrogate (full_content P p blog));
       [|destruct (stdout_accepts P _)]];
      rewrite H; unfold result; cbn [fst]; split;
      try discriminate;
      try (intros [Hr|(stem' & msg' & [= <-] & Ho & Hacc & _)];
           [discriminate Hr|congruence]).
    + intros [= <-]. right. exists stem, msg. auto.
    + intros [Hr|(stem' & msg' & [= <-] & Ho & Hacc & ->)];
        [discriminate Hr|congruence].
  - rewrite H. unfold result. cbn [fst]. split.
    + intros [= <-]. now left.
    + intros [Hr|(stem & msg & Hs & _)]; [congruence|discriminate Hs].
Qed.

(** X10. An exception leaves the Publisher in two cases only: building the
    file name from the title raises (line 107, before the [try]), or the
    file cannot be opened and standard output cannot encode the message of
    that failure (line 119, inside the handler).  In both the Publisher
    has printed its first line only and has touched no file.  A title that
    is [None], a boolean or a number raises [TypeError]. *)
Theorem publisher_raises_in_two_cases P p blog :
  (forall e,
      result (save_as_markdown P p blog) = Raise e
      <-> safe_filename P (title p) = Raise e
          \/ exists stem msg,
               safe_filename P (title p) = Ret stem
               /\ open_error P (stem ++ py ".md") = Some msg
               /\ stdout_accepts P msg = false
               /\ e = print_exn P (save_failed_line msg))
  /\ (forall e,
        result (save_as_markdown P p blog) = Raise e ->
        events (save_as_markdown P p blog) = publisher_banner)
  /\ match title p with
     | VNone | VBool _ | VInt _ | VFloat _ =>
         result (save_as_markdown P p blog) = Raise (Exn TypeError [])
     | _ => True
     end.
Proof.
  split; [intros e; apply save_raises|]. split.
  - intros e Hr. pose proof (save_cases P p blog) as H.
    destruct (safe_filename P (title p)) as [stem|e']; cbn zeta in H.
    + destruct (open_error P (stem ++ py ".md")) as [msg|];
        [destruct (stdout_accepts P msg)
        |destruct (existsb is_surrogate (full_content P p blog));
         [|destruct (stdout_accepts P _)]];
        rewrite H in *; try discriminate Hr. reflexivity.
    + now rewrite H.
  - pose proof (save_cases P p blog) as H. revert H.
    destruct (title p) as [ |b|n|f|t|l|d]; intros H; try exact I;
      unfold safe_filename, py_iter, py_error in H; rewrite H; reflexivity.
Qed.

(** X11. When the Publisher cannot open its file, it changes nothing on
    disk, and it returns when standard output can encode the message of
    the failure.  When the file opens and the content cannot be encoded as
    UTF-8 (it holds a lone surrogate), the Publisher returns and the file
    is left empty: what a file of that name held before is lost. *)
Theorem publisher_failure_modes P p blog stem :
  safe_filename P (title p) = Ret stem ->
  (forall msg,
      open_error P (stem ++ py ".md") = Some msg ->
      (forall fs, replay (events (save_as_markdown P p blog)) fs = fs)
      /\ (stdout_accepts P msg = true ->
          result (save_as_markdown P p blog) = Ret tt))
  /\ (open_error P (stem ++ py ".md") = None ->
      existsb is_surrogate (full_content P p blog) = true ->
      result (save_as_markdown P p blog) = Ret tt
      /\ forall fs,
           replay (events (save_as_markdown P p blog)) fs
           = <[stem ++ py ".md" := []]> fs).
Proof.
  intros Hstem. pose proof (save_cases P p blog) as H. rewrite Hstem in H.
  cbn zeta in H. split.
  - intros msg Hopen. rewrite Hopen in H.
    destruct (stdout_accepts P msg); rewrite H; split;
      try (intros fs; reflexivity); try reflexivity; discriminate.
  - intros Hopen Henc. rewrite Hopen, Henc in H. rewrite H.
    split; [reflexivity|]. intros fs. reflexivity.
Qed.

Lemma publisher_failure_modes_witness :
  replay
    (events (save_as_markdown plain_platform
               {| title := VStr (py "Acme Trail Shoe: X1!");
                  price := VStr (py "$59.99");
                  source := VStr (py "Acme Store");
                  link := VStr [55296%N] |}
               (py "Meet.")))
    {[ py "Acme Trail Shoe X1.md" := py "an earlier article" ]}
  !! py "Acme Trail Shoe X1.md" = Some [].
Proof.
  destruct (publisher_failure_modes plain_platform
              {| title := VStr (py "Acme Trail Shoe: X1!");
                 price := VStr (py "$59.99");
                 source := VStr (py "Acme Store");
                 link := VStr [55296%N] |}
              (py "Meet.") (py "Acme Trail Shoe X1") eq_refl) as [_ H].
  destruct (H eq_refl eq_refl) as [_ Hfs].
  rewrite Hfs. apply lookup_insert_eq.
Defined.

(** X12. Two products whose titles clean to the same file name share one
    file: after the Publisher has saved an article for each, the file
    holds the second content and the first is gone. *)
Theorem second_product_overwrites P p1 blog1 p2 blog2 stem :
  safe_filename P (title p1) = Ret stem ->
  safe_filename P (title p2) = Ret stem ->
  open_error P (stem ++ py ".md") = None ->
  existsb is_surrogate (full_content P p1 blog1) = false ->
  existsb is_surrogate (full_content P p2 blog2) = false ->
  forall fs,
    replay (events (save_as_markdown P p2 blog2))
      (replay (events (save_as_markdown P p1 blog1)) fs)
    = <[stem ++ py ".md" := full_content P p2 blog2]> fs.
Proof.
  intros H1 H2 Hopen He1 He2 fs.
  assert (Hops : forall p blog,
             safe_filename P (title p) = Ret stem ->
             existsb is_surrogate (full_content P p blog) = false ->
             file_ops (events (save_as_markdown P p blog))
             = [Opened (stem ++ py ".md");
                Wrote (stem ++ py ".md") (full_content P p blog)]).
  { intros p blog Hs He. pose proof (save_cases P p blog) as S.
    rewrite Hs in S. cbn zeta in S. rewrite Hopen, He in S.
    destruct (stdout_accepts P (stem ++ py ".md")); rewrite S; reflexivity. }
  rewrite <- !(replay_file_ops (events _)).
  rewrite (Hops p1 blog1 H1 He1), (Hops p2 blog2 H2 He2).
  rewrite !replay_open_write. apply insert_insert_eq.
Qed.

Lemma second_product_overwrites_witness :
  safe_filename plain_platform (VStr (py "Acme Trail Shoe: X1!"))
  = safe_filename plain_platform (VStr (py "Acme Trail Shoe X1?  "))
  /\ forall fs : gmap (list N) (list N),
       replay
         (events (save_as_markdown plain_platform
                    {| title := VStr (py "Acme Trail Shoe X1?  ");
                       price := VNone; source := VNone;
                       link := VStr (py "https://example.com/other") |}
                    (py "Second.")))
         (replay (events (save_as_markdown plain_platform acme (py "First."))) fs)
       !! py "Acme Trail Shoe X1.md"
       = Some (full_content plain_platform
                 {| title := VStr (py "Acme Trail Shoe X1?  ");
                    price := VNone; source := VNone;
                    link := VStr (py "https://example.com/other") |}
                 (py "Second.")).
Proof.
  split; [reflexivity|]. intros fs.
  rewrite (second_product_overwrites plain_platform acme (py "First.")
             {| title := VStr (py "Acme Trail Shoe X1?  ");
                price := VNone; source := VNone;
                link := VStr (py "https://example.com/other") |}
             (py "Second.") (py "Acme Trail Shoe X1")
             eq_refl eq_refl eq_refl eq_refl eq_refl fs).
  apply lookup_insert_eq.
Defined.

(** ** The file system after a run *)

(** X13. A run leaves the file system as it was, or changes exactly one
    file: no other file is created, changed or removed. *)
Theorem run_changes_one_file P r query fs :
  run P r query fs = fs
  \/ exists name content, run P r query fs = <[name := content]> fs.
Proof.
  unfold run. rewrite <- replay_file_ops.
  destruct (main_file_ops P r query) as [E|[name [E|[content E]]]]; rewrite E.
  - now left.
  - right. exists name, []. reflexivity.
  - right. exists name, content. apply replay_open_write.
Qed.

Lemma own_wrote s l name content :
  forallb (step_event s) l = true -> In (Wrote name content) l -> s = Publisher.
Proof.
  rewrite forallb_forall. intros H Hin. specialize (H _ Hin). simpl in H.
  now destruct s.
Qed.

(** X14. Nothing is written without the whole chain: when a run writes a
    content to a file, the Finder returned a product, the Keyword Generator
    returned keywords, the article reply was not blank, the file is the one
    named after the product's title, and the content is the trimmed article
    followed by the link block of that product. *)
Theorem written_file_comes_from_full_chain P r query name content :
  In (Wrote name content) (events (main P r query)) ->
  exists p kws reply stem,
    result (find_trending_product P (search r) query) = Ret (Some p)
    /\ result (get_seo_keywords P (keywords_reply r) p) = Ret (Some kws)
    /\ kws <> []
    /\ article_reply r = GenText reply
    /\ strip reply <> []
    /\ safe_filename P (title p) = Ret stem
    /\ name = stem ++ py ".md"
    /\ content = full_content P p (strip reply)
    /\ open_error P name = None
    /\ existsb is_surrogate content = false.
Proof.
  intros Hin.
  destruct (main_shape P r query) as
    [e l1 E1|l1 E1|p l1 e l2 E1 E2|p l1 kws l2 E1 E2 Hk
    |p l1 k ks l2 e l3 E1 E2 E3|p l1 k ks l2 blog l3 E1 E2 E3 Hb
    |p l1 k ks l2 c cs l3 o l4 E1 E2 E3 E4];
    pose proof (finder_log _ _ _ _ _ E1) as O1;
    try pose proof (keywords_log _ _ _ _ _ E2) as O2;
    try pose proof (article_log _ _ _ _ _ _ E3) as O3;
    unfold events in Hin; cbn [snd] in Hin; rewrite ?in_app_iff in Hin;
    repeat match goal with
    | H : _ \/ _ |- _ => destruct H
    | H : In (Wrote _ _) ?l, O : forallb _ ?l = true |- _ =>
        apply (own_wrote _ _ _ _ O) in H; discriminate H
    end.
  destruct (article_reply r) as [e|reply] eqn:Ea.
  { destruct (stdout_accepts P (exn_msg e)) eqn:Hm;
      [rewrite (article_on_error P e p (k :: ks) Hm) in E3
      |rewrite (article_in_handler P e p (k :: ks) Hm) in E3];
      discriminate E3. }
  rewrite article_on_text in E3. injection E3 as Es _.
  pose proof (save_cases P p (c :: cs)) as S.
  destruct (safe_filename P (title p)) as [stem|e] eqn:Estem; cbn zeta in S.
  - destruct (open_error P (stem ++ py ".md")) as [msg|] eqn:Eo;
      [destruct (stdout_accepts P msg)
      |destruct (existsb is_surrogate (full_content P p (c :: cs))) eqn:Ee;
       [|destruct (stdout_accepts P (stem ++ py ".md"))]];
      rewrite S in E4; injection E4 as _ <-;
      unfold publisher_banner, saved, save_failed in H; simpl in H;
      repeat (destruct H as [H|H]; try discriminate H; try contradiction);
      injection H as <- <-;
      exists p, (k :: ks), reply, stem;
      rewrite E1, E2, Es; unfold result; simpl;
      repeat split; try reflexivity; try discriminate; assumption.
  - rewrite S in E4. injection E4 as _ <-.
    unfold publisher_banner in H. simpl in H.
    repeat (destruct H as [H|H]; try discriminate H; try contradiction).
Qed.

Lemma written_file_comes_from_full_chain_witness :
  exists p stem,
    result (find_trending_product plain_platform (search acme_responses) shoes)
    = Ret (Some p)
    /\ safe_filename plain_platform (title p) = Ret stem
    /\ py "Acme Trail Shoe X1.md" = stem ++ py ".md".
Proof.
  assert (Hin : In (Wrote (py "Acme Trail Shoe X1.md")
                      (full_content plain_platform acme
                         (py "Meet the Acme Trail Shoe X1.")))
                   (events (main plain_platform acme_responses shoes))).
  { vm_compute. repeat (first [left; reflexivity | right]). }
  destruct (written_file_comes_from_full_chain _ _ _ _ _ Hin)
    as (p & kws & reply & stem & Hp & _ & _ & _ & _ & Hstem & Hname & _).
  exists p, stem. split; [exact Hp|]. split; [exact Hstem|exact Hname].
Defined.

(** X15. When every call succeeds and standard output can encode the
    query, the line of the product found and the listing of the keywords,
    the article is published: if the parsed body is an object whose results
    list starts with an object that has a string for title, both generation
    calls return a text, the article is not blank, the file can be opened
    and the content encoded, then [main] returns and the only change on
    disk is the file named after the title, which holds the trimmed article
    and the link block.  Whether the file name itself can be printed does
    not matter: line 116 comes after the write, and its failure is caught. *)
Theorem successful_run_publishes P r query d entry rest t kreply areply :
  search r = BodyJson (VDict d) ->
  dict_lookup d shopping_results = Some (VList (VDict entry :: rest)) ->
  dict_lookup entry (py "title") = Some (VStr t) ->
  keywords_reply r = GenText kreply ->
  article_reply r = GenText areply ->
  strip areply <> [] ->
  stdout_accepts P query = true ->
  stdout_accepts P (found_line P (entry_info entry)) = true ->
  stdout_accepts P (join (py ", ") (List.map strip (split comma kreply))) = true ->
  let name := rstrip (List.filter (allowed P) t) ++ py ".md" in
  let content := full_content P (entry_info entry) (strip areply) in
  open_error P name = None ->
  existsb is_surrogate content = false ->
  result (main P r query) = Ret tt
  /\ forall fs, run P r query fs = <[name := content]> fs.
Proof.
  intros Hs Hd Ht Hk Ha Hblog Hq Hfound Hlist name content Hopen Henc.
  assert (Etitle : title (entry_info entry) = VStr t).
  { unfold entry_info. cbn [title]. now rewrite Ht. }
  assert (Esave : exists tail,
             save_as_markdown P (entry_info entry) (strip areply)
             = (Ret tt, publisher_banner
                        ++ [Opened name; Wrote name content] ++ tail)
             /\ file_ops tail = []).
  { pose proof (save_cases P (entry_info entry) (strip areply)) as S.
    rewrite Etitle, safe_filename_str in S. cbn zeta in S.
    fold name in S. fold content in S. rewrite Hopen, Henc in S.
    destruct (stdout_accepts P name).
    - exists (saved name). split; [exact S|reflexivity].
    - exists [save_failed (stdout_error P (saved_line name))].
      split; [exact S|reflexivity]. }
  destruct Esave as (tail & Esave & Htail).
  pose proof (split_not_nil comma kreply) as Hnn.
  assert (Emain : main P r query
                  = (Ret tt,
                     (finder_banner query ++ [found P (entry_info entry)])
                     ++ (keywords_banner P (entry_info entry)
                         ++ [Printed (py "-> Keywords generated: "
                               ++ join (py ", ") (List.map strip (split comma kreply)))])
                     ++ (article_banner P (entry_info entry)
                           (List.map strip (split comma kreply))
                         ++ [Printed (py "-> Blog post written successfully.")])
                     ++ (publisher_banner
                         ++ [Opened name; Wrote name content] ++ tail))).
  { unfold main. rewrite Hs, (find_on_object P d entry rest query Hq Hd Hfound).
    cbn [bind]. rewrite Hk, (keywords_on_text P kreply _ Hlist).
    destruct (split comma kreply) as [|seg segs]; [contradiction|].
    cbn [bind List.map]. rewrite Ha, article_on_text.
    destruct (strip areply) as [|c cs] eqn:Eb; [contradiction|].
    cbn [bind]. rewrite Esave. reflexivity. }
  rewrite Emain. split; [reflexivity|].
  intros fs. unfold run. rewrite Emain. unfold events. cbn [snd].
  rewrite <- replay_file_ops. rewrite !file_ops_app. rewrite Htail.
  change (file_ops (finder_banner query)) with (@nil event).
  change (file_ops [found P (entry_info entry)]) with (@nil event).
  change (file_ops (keywords_banner P (entry_info entry))) with (@nil event).
  change (file_ops (article_banner P (entry_info entry)
                      (List.map strip (split comma kreply)))) with (@nil event).
  change (file_ops publisher_banner) with (@nil event).
  cbn [file_ops List.filter is_file_op app].
  apply replay_open_write.
Qed.

Lemma successful_run_publishes_witness :
  result (main plain_platform acme_responses shoes) = Ret tt
  /\ run plain_platform acme_responses shoes ∅
     = {[ py "Acme Trail Shoe X1.md" :=
            py "Meet the Acme Trail Shoe X1." ++ nl ++ nl ++ py "---" ++ nl ++ nl
            ++ py "**Find it here:** [Acme Trail Shoe: X1!](https://example.com/x1)" ]}.
Proof.
  destruct (successful_run_publishes plain_platform acme_responses shoes
              [(shopping_results, VList [VDict acme_entry])] acme_entry []
              (py "Acme Trail Shoe: X1!")
              (py "trail shoes, lightweight running shoes")
              (py "Meet the Acme Trail Shoe X1.")
              eq_refl eq_refl eq_refl eq_refl eq_refl)
    as [Hr Hfs];
    [discriminate|reflexivity|reflexivity|reflexivity|reflexivity|reflexivity|].
  split; [exact Hr|]. rewrite Hfs. reflexivity.
Defined.

(** ** The script *)

(** X16. How the process ends.  When [genai.configure] raises, no step is
    entered, no request sent and no file touched: the script prints the
    fatal line and exits with status 0, or, when standard output cannot
    encode that line, ends on the [UnicodeEncodeError] of its [print]
    inside the handler.  An uncaught exception that ends the process is
    the error of a [print], or it left the Finder or the file-name line of
    the Publisher.  In every other case, also when a step has failed and
    no file was written, the status is 0, unless the argument parser itself
    left with its own. *)
Theorem script_endings P i :
  (forall e,
      configure i = Some e ->
      entered (snd (script P i)) = []
      /\ requests (snd (script P i)) = []
      /\ file_ops (snd (script P i)) = []
      /\ (stdout_accepts P (exn_msg e) = true ->
          script P i
          = (Exited 0,
             [Printed (py "[FATAL ERROR] Could not configure Google API: "
                          ++ exn_msg e)]))
      /\ (stdout_accepts P (exn_msg e) = false ->
          script P i
          = (Uncaught
               (print_exn P (py "[FATAL ERROR] Could not configure Google API: "
                                ++ exn_msg e)), [])))
  /\ (forall e,
        fst (script P i) = Uncaught e ->
        (exists line, e = print_exn P line)
        \/ (configure i = None
            /\ exists query,
                 arguments i = ArgsParsed query
                 /\ (result (find_trending_product P (search (replies i)) query)
                     = Raise e
                     \/ exists p,
                          result (find_trending_product P (search (replies i))
                                    query)
                          = Ret (Some p)
                          /\ safe_filename P (title p) = Raise e)))
  /\ (forall status,
        fst (script P i) = Exited status ->
        status = 0%Z \/ (configure i = None /\ arguments i = ArgsExit status)).
Proof.
  assert (Hfatal : forall e,
             stdout_accepts P
               (py "[FATAL ERROR] Could not configure Google API: " ++ exn_msg e)
             = stdout_accepts P (exn_msg e)).
  { intros e. rewrite accepts_app. now rewrite accepts_ascii. }
  unfold script. split; [|split].
  - intros e ->. cbn [is_Exception].
    destruct (stdout_accepts P (exn_msg e)) eqn:Hm.
    + rewrite print_ok by (now rewrite Hfatal).
      repeat split; try reflexivity. discriminate.
    + rewrite print_fails by (now rewrite Hfatal).
      repeat split; try reflexivity. discriminate.
  - intros e. destruct (configure i) as [e0|].
    { cbn [is_Exception].
      destruct (stdout_accepts P (exn_msg e0)) eqn:Hm.
      - rewrite print_ok by (now rewrite Hfatal). discriminate.
      - rewrite print_fails by (now rewrite Hfatal). intros [= <-].
        left. eexists. reflexivity. }
    destruct (arguments i) as [query|status]; [|discriminate].
    intros Hu.
    destruct (main_shape P (replies i) query) as
      [e' l1 E1|l1 E1|p l1 e' l2 E1 E2|p l1 kws l2 E1 E2 Hk
      |p l1 k ks l2 e' l3 E1 E2 E3|p l1 k ks l2 blog l3 E1 E2 E3 Hb
      |p l1 k ks l2 c cs l3 o l4 E1 E2 E3 E4]; cbn in Hu; try discriminate Hu.
    + injection Hu as ->. right. split; [reflexivity|]. exists query.
      split; [reflexivity|]. left. now rewrite E1.
    + injection Hu as ->. left.
      destruct (keywords_reply (replies i)) as [e0|reply].
      * destruct (stdout_accepts P (exn_msg e0)) eqn:Hm;
          [rewrite (keywords_on_error P e0 p Hm) in E2; discriminate E2
          |rewrite (keywords_in_handler P e0 p Hm) in E2].
        injection E2 as <- _. eexists. reflexivity.
      * destruct (stdout_accepts P
                    (join (py ", ") (List.map strip (split comma reply)))) eqn:Hl;
          [rewrite (keywords_on_text P reply p Hl) in E2
          |rewrite (keywords_at_listing P reply p Hl) in E2]; discriminate E2.
    + injection Hu as ->. left.
      destruct (article_reply (replies i)) as [e0|reply].
      * destruct (stdout_accepts P (exn_msg e0)) eqn:Hm;
          [rewrite (article_on_error P e0 p (k :: ks) Hm) in E3; discriminate E3
          |rewrite (article_in_handler P e0 p (k :: ks) Hm) in E3].
        injection E3 as <- _. eexists. reflexivity.
      * rewrite article_on_text in E3. discriminate E3.
    + destruct o as [[]|e']; [discriminate Hu|]. injection Hu as ->.
      assert (Hr : result (save_as_markdown P p (c :: cs)) = Raise e)
        by now rewrite E4.
      apply save_raises in Hr as [Hr|(stem & msg & _ & _ & _ & ->)].
      * right. split; [reflexivity|]. exists query. split; [reflexivity|].
        right. exists p. split; [now rewrite E1|exact Hr].
      * left. eexists. reflexivity.
  - intros status. destruct (configure i) as [e0|].
    + cbn [is_Exception].
      destruct (print P _) as [[[]|e'] log]; [|discriminate].
      intros [= <-]. now left.
    + destruct (arguments i) as [query|st].
      * destruct (main P (replies i) query) as [[[]|e] l]; [|discriminate].
        intros [= <-]. now left.
      * intros [= <-]. right. split; reflexivity.
Qed.

(** ** The keywords and their listing *)

Lemma split_free_segment sep k :
  ~ In sep k -> split sep k = [k].
Proof.
  induction k as [|c k IH]; intros H; [reflexivity|]. simpl.
  destruct (N.eqb_spec c sep) as [->|Hne]; [destruct H; now left|].
  rewrite IH; [reflexivity|]. intros Hin. apply H. now right.
Qed.

Lemma split_app_sep sep k rest :
  ~ In sep k -> split sep (k ++ sep :: rest) = k :: split sep rest.
Proof.
  induction k as [|c k IH]; intros H; simpl.
  - now rewrite N.eqb_refl.
  - destruct (N.eqb_spec c sep) as [->|Hne]; [destruct H; now left|].
    rewrite IH; [reflexivity|]. intros Hin. apply H. now right.
Qed.

Lemma strip_cons_space c s : isspace c = true -> strip (c :: s) = strip s.
Proof.
  intros Hc. unfold strip. simpl.
  destruct (rstrip s) as [|x t]; simpl; rewrite Hc; reflexivity.
Qed.

Lemma split_cons_other sep c s :
  c <> sep ->
  exists seg segs, split sep s = seg :: segs
                   /\ split sep (c :: s) = (c :: seg) :: segs.
Proof.
  intros Hne. simpl. destruct (N.eqb_spec c sep); [contradiction|].
  pose proof (split_not_nil sep s).
  destruct (split sep s) as [|seg segs]; [contradiction|]. eauto.
Qed.

Lemma listing_round_trip kws :
  kws <> [] ->
  Forall (fun k => ~ In comma k /\ strip k = k) kws ->
  List.map strip (split comma (join (py ", ") kws)) = kws.
Proof.
  intros Hnn Hall. induction Hall as [|k ks [Hfree Hk] Hks IH]; [contradiction|].
  destruct ks as [|k' ks'].
  - simpl. rewrite (split_free_segment comma k Hfree). simpl. now rewrite Hk.
  - change (join (py ", ") (k :: k' :: ks'))
      with (k ++ comma :: 32%N :: join (py ", ") (k' :: ks')).
    rewrite (split_app_sep comma k _ Hfree). cbn [List.map]. rewrite Hk. f_equal.
    destruct (split_cons_other comma 32%N (join (py ", ") (k' :: ks')))
      as (seg & segs & E & ->); [discriminate|].
    rewrite <- IH by discriminate. rewrite E. cbn [List.map].
    now rewrite strip_cons_space.
Qed.

Lemma reply_round_trip reply :
  List.map strip
    (split comma (join (py ", ") (List.map strip (split comma reply))))
  = List.map strip (split comma reply).
Proof.
  apply listing_round_trip.
  - pose proof (split_not_nil comma reply). now destruct (split comma reply).
  - pose proof (split_free comma reply) as Hfree.
    induction Hfree as [|seg segs Hseg _ IH]; simpl; constructor; [|exact IH].
    split.
    + intros Hin. apply Hseg. now apply in_strip.
    + apply strip_tight, tight_strip.
Qed.

(** X17. The listing of the keywords loses nothing: the text in which the
    Keyword Generator prints its keywords and the Article Writer's prompt
    embeds them (the keywords joined by [", "]), given back as a reply,
    makes the Keyword Generator return the same keywords. *)
Theorem keyword_listing_round_trip P p p' reply kws :
  result (get_seo_keywords P (GenText reply) p) = Ret (Some kws) ->
  result (get_seo_keywords P (GenText (join (py ", ") kws)) p')
  = Ret (Some kws).
Proof.
  intros H.
  assert (Hkws : kws = List.map strip (split comma reply)
                 /\ stdout_accepts P (join (py ", ") kws) = true).
  { destruct (stdout_accepts P
                (join (py ", ") (List.map strip (split comma reply)))) eqn:Hl;
      [rewrite (keywords_on_text P reply p Hl) in H
      |rewrite (keywords_at_listing P reply p Hl) in H; discriminate H].
    injection H as <-. now split. }
  destruct Hkws as [-> Hl].
  pose proof (reply_round_trip reply) as Hback.
  rewrite keywords_on_text by (now rewrite Hback).
  unfold result. cbn [fst]. now rewrite Hback.
Qed.

Lemma keyword_listing_round_trip_witness :
  result (get_seo_keywords plain_platform
            (GenText (py "  trail shoes ,, lightweight running shoes  ")) acme)
  = Ret (Some [py "trail shoes"; []; py "lightweight running shoes"])
  /\ result (get_seo_keywords plain_platform
               (GenText (join (py ", ")
                           [py "trail shoes"; []; py "lightweight running shoes"]))
               acme)
     = Ret (Some [py "trail shoes"; []; py "lightweight running shoes"]).
Proof.
  assert (H : result (get_seo_keywords plain_platform
                        (GenText (py "  trail shoes ,, lightweight running shoes  "))
                        acme)
              = Ret (Some [py "trail shoes"; []; py "lightweight running shoes"])).
  { vm_compute. reflexivity. }
  split; [exact H|].
  apply (keyword_listing_round_trip _ _ _ _ _ H).
Defined.

(** ** A blank article *)

Ltac not_error_line :=
  let rest := fresh "rest" in
  let H := fresh "H" in
  intros [rest H]; try discriminate H;
  injection H as H; unfold py in H; simpl in H; discriminate H.

(** X18. A blank article ends the run without a word: when the Finder
    returns a product, the Keyword Generator returns keywords and the
    article reply is empty or whitespace only, the Article Writer still
    prints its success line, [main] returns, the Publisher is not entered,
    no file is written, and no [print] call of the run has a text that
    starts with [[ERROR] ]. *)
Theorem blank_article_ends_silently P r query p kws areply :
  result (find_trending_product P (search r) query) = Ret (Some p) ->
  result (get_seo_keywords P (keywords_reply r) p) = Ret (Some kws) ->
  article_reply r = GenText areply ->
  blank areply ->
  result (main P r query) = Ret tt
  /\ In (Printed (py "-> Blog post written successfully."))
        (events (main P r query))
  /\ ~ invoked Publisher (events (main P r query))
  /\ file_ops (events (main P r query)) = []
  /\ (forall e, In e (events (main P r query)) -> ~ error_line e).
Proof.
  intros Hfind Hk Ha Hblank.
  apply strip_nil_iff in Hblank.
  assert (Efind : exists entry,
             p = entry_info entry
             /\ find_trending_product P (search r) query
                = (Ret (Some (entry_info entry)),
                   finder_banner query ++ [found P (entry_info entry)])).
  { destruct (find_endings P (search r) query) as
      [Hq|e0 Hq Hf He Hm|e0 Hq Hf He Hm|e0 Hq Hf He|data Hq Hb Hn
      |d entry rest Hq Hb Hd Hl|d entry rest Hq Hb Hd Hl|data c Hq Hb Hc];
      try discriminate Hfind.
    injection Hfind as <-. exists entry. now split. }
  destruct Efind as (entry & -> & Efind).
  assert (Ekw : exists kreply,
             kws = List.map strip (split comma kreply)
             /\ get_seo_keywords P (keywords_reply r) (entry_info entry)
                = (Ret (Some kws),
                   keywords_banner P (entry_info entry)
                   ++ [Printed (py "-> Keywords generated: "
                                   ++ join (py ", ") kws)])).
  { revert Hk. destruct (keywords_reply r) as [e0|kreply].
    - destruct (stdout_accepts P (exn_msg e0)) eqn:Hm;
        [rewrite (keywords_on_error P e0 _ Hm)
        |rewrite (keywords_in_handler P e0 _ Hm)]; discriminate.
    - destruct (stdout_accepts P
                  (join (py ", ") (List.map strip (split comma kreply)))) eqn:Hl;
        [rewrite (keywords_on_text P kreply _ Hl)
        |rewrite (keywords_at_listing P kreply _ Hl); discriminate].
      intros [= <-]. exists kreply. now split. }
  destruct Ekw as (kreply & Hkws & Ekw).
  pose proof (split_not_nil comma kreply) as Hnn.
  assert (Emain : main P r query
                  = (Ret tt,
                     (finder_banner query ++ [found P (entry_info entry)])
                     ++ (keywords_banner P (entry_info entry)
                         ++ [Printed (py "-> Keywords generated: "
                               ++ join (py ", ") kws)])
                     ++ (article_banner P (entry_info entry) kws
                         ++ [Printed (py "-> Blog post written successfully.")])
                     ++ [])).
  { unfold main. rewrite Efind. cbn [bind]. rewrite Ekw.
    destruct kws as [|kw kws']; [destruct (split comma kreply); [contradiction|discriminate Hkws]|].
    cbn [bind]. rewrite Ha, article_on_text, Hblank. reflexivity. }
  rewrite Emain. unfold events, result, invoked. cbn [fst snd].
  split; [reflexivity|]. split.
  { rewrite !in_app_iff. right. right. left. right. now left. }
  split.
  { rewrite !in_app_iff. simpl. intros H.
    repeat (destruct H as [H|H]; try discriminate H; try contradiction). }
  split; [reflexivity|].
  intros e He. rewrite !in_app_iff in He. simpl in He.
  repeat (destruct He as [He|He]; try contradiction); subst e;
    unfold found; not_error_line.
Qed.

Lemma blank_article_ends_silently_witness :
  result (main plain_platform
            {| search := search acme_responses;
               keywords_reply := keywords_reply acme_responses;
               article_reply := GenText (py "   ") |} shoes) = Ret tt
  /\ file_ops (events (main plain_platform
                         {| search := search acme_responses;
                            keywords_reply := keywords_reply acme_responses;
                            article_reply := GenText (py "   ") |} shoes)) = [].
Proof.
  destruct (blank_article_ends_silently plain_platform
              {| search := search acme_responses;
                 keywords_reply := keywords_reply acme_responses;
                 article_reply := GenText (py "   ") |}
              shoes acme [py "trail shoes"; py "lightweight running shoes"]
              (py "   ")
              eq_refl eq_refl eq_refl)
    as (Hr & _ & _ & Hf & _).
  - repeat constructor.
  - split; [exact Hr|exact Hf].
Defined.
